(** * EcoSnap home page: scoring, levels, history and profile reconciliation

    A shallow embedding of the gamification logic of
    [src/app/dashboard/page.tsx] (the [HomePage] component): the constant
    tables [WASTE_POINTS], [LEVELS] and [verticalLogCategories], the default
    profile, [checkLoginStatus], [handleClassify], [getCurrentLevel] and the
    progress percentage.

    Conventions of the model.
    - A waste category is the string the classifier returned: the source
      casts it to [WasteCategory] without checking it.  A string that names a
      member every object inherits from [Object.prototype] indexes the points
      table to a function or an object; [WASTE_POINTS_index], [award] and
      [updatedUserData] cover that case, and the integer-valued
      [pointsEarned], [applyClassification] and [handleClassify] describe
      the page for every other string.
    - Scores, counters and timestamps are integers ([Z]).  Numbers with a
      fractional part ([co2Managed], [confidence], the progress percentage)
      are exact rationals ([Q]); binary rounding of IEEE doubles is not
      modelled.
    - Strings are ASCII strings.
    - React state and [localStorage] are fields of one explicit state record
      that every handler receives and returns. *)

From Stdlib Require Import ZArith QArith Qminmax Qround List String Ascii Bool Lia.
From Stdlib Require Import DecimalString Sorting Permutation.
Import ListNotations.

Local Open Scope string_scope.
Local Open Scope Z_scope.

(** ** JavaScript helpers *)

(** [x || y] on numbers: [0] is the only falsy integer. *)
Definition num_or (x y : Z) : Z := if x =? 0 then y else x.

(** [x || y] where [x] may be [undefined]. *)
Definition lookup_or (x : option Z) (y : Z) : Z :=
  match x with
  | Some v => num_or v y
  | None => y
  end.

(** Truthiness of a [string | null]: [null] and the empty string are falsy. *)
Definition truthy (s : option string) : bool :=
  match s with
  | Some EmptyString => false
  | Some _ => true
  | None => false
  end.

(** [s.split('@')[0]]: the characters before the first at-sign. *)
Fixpoint before_at (s : string) : string :=
  match s with
  | EmptyString => EmptyString
  | String c rest => if (c =? "@")%char then EmptyString else String c (before_at rest)
  end.

Definition upper_char (c : ascii) : ascii :=
  let n := nat_of_ascii c in
  if ((97 <=? n) && (n <=? 122))%nat then ascii_of_nat (n - 32) else c.

(** [s.toUpperCase()] on ASCII text. *)
Fixpoint toUpperCase (s : string) : string :=
  match s with
  | EmptyString => EmptyString
  | String c rest => String (upper_char c) (toUpperCase rest)
  end.

(** [n.toString()] for an integer. *)
Definition toString (n : Z) : string := NilZero.string_of_int (Z.to_int n).

(** [parseFloat(x.toFixed(1))]: the nearest multiple of one tenth, a tie
    going away from zero. *)
Definition toFixed1 (x : Q) : Q :=
  if Qle_bool 0 x
  then Qmake (Qfloor (x * 10 + (1 # 2))%Q) 10
  else Qmake (- Qfloor ((- x) * 10 + (1 # 2))%Q) 10.

(** ** Data model *)

Definition WasteCategory : Type := string.

Record UserProfile : Type := mkUserProfile {
  id : string;
  displayName : string;
  email : string;
  avatar : string;
  score : Z;
  co2Managed : Q;
  totalEwaste : Z;
  totalPlastic : Z;
  totalBiowaste : Z;
  totalCardboard : Z;
  totalPaper : Z;
  totalGlass : Z;
  totalMetal : Z;
  totalOrganic : Z;
  totalOther : Z;
  totalPlasticOther : Z;
  totalPlasticPete : Z;
  totalPlasticHdpe : Z;
  totalPlasticPp : Z;
  totalPlasticPs : Z;
  itemsClassified : Z;
  challengesCompleted : Z;
  badges : list string
}.

Record ClassificationRecord : Type := mkRecord {
  rec_id : string;
  imageDataUri : string;
  category : WasteCategory;
  confidence : Q;
  timestamp : Z;
  points : Z
}.

(** The names of the per-category counters of a profile. *)
Inductive QuantityKey : Type :=
  | KTotalEwaste
  | KTotalPlastic
  | KTotalBiowaste
  | KTotalCardboard
  | KTotalPaper
  | KTotalGlass
  | KTotalMetal
  | KTotalOrganic
  | KTotalOther
  | KTotalPlasticOther
  | KTotalPlasticPete
  | KTotalPlasticHdpe
  | KTotalPlasticPp
  | KTotalPlasticPs.

Definition QuantityKey_eq_dec (a b : QuantityKey) : {a = b} + {a <> b}.
Proof. decide equality. Defined.

Definition all_quantity_keys : list QuantityKey :=
  [KTotalEwaste; KTotalPlastic; KTotalBiowaste; KTotalCardboard; KTotalPaper;
   KTotalGlass; KTotalMetal; KTotalOrganic; KTotalOther; KTotalPlasticOther;
   KTotalPlasticPete; KTotalPlasticHdpe; KTotalPlasticPp; KTotalPlasticPs].

(** [profile[key]] *)
Definition quantity (k : QuantityKey) (p : UserProfile) : Z :=
  match k with
  | KTotalEwaste => totalEwaste p
  | KTotalPlastic => totalPlastic p
  | KTotalBiowaste => totalBiowaste p
  | KTotalCardboard => totalCardboard p
  | KTotalPaper => totalPaper p
  | KTotalGlass => totalGlass p
  | KTotalMetal => totalMetal p
  | KTotalOrganic => totalOrganic p
  | KTotalOther => totalOther p
  | KTotalPlasticOther => totalPlasticOther p
  | KTotalPlasticPete => totalPlasticPete p
  | KTotalPlasticHdpe => totalPlasticHdpe p
  | KTotalPlasticPp => totalPlasticPp p
  | KTotalPlasticPs => totalPlasticPs p
  end.

(** A profile whose counters are read from [f], every other field from [p]. *)
Definition with_quantities (p : UserProfile) (f : QuantityKey -> Z) : UserProfile :=
  {| id := id p;
     displayName := displayName p;
     email := email p;
     avatar := avatar p;
     score := score p;
     co2Managed := co2Managed p;
     totalEwaste := f KTotalEwaste;
     totalPlastic := f KTotalPlastic;
     totalBiowaste := f KTotalBiowaste;
     totalCardboard := f KTotalCardboard;
     totalPaper := f KTotalPaper;
     totalGlass := f KTotalGlass;
     totalMetal := f KTotalMetal;
     totalOrganic := f KTotalOrganic;
     totalOther := f KTotalOther;
     totalPlasticOther := f KTotalPlasticOther;
     totalPlasticPete := f KTotalPlasticPete;
     totalPlasticHdpe := f KTotalPlasticHdpe;
     totalPlasticPp := f KTotalPlasticPp;
     totalPlasticPs := f KTotalPlasticPs;
     itemsClassified := itemsClassified p;
     challengesCompleted := challengesCompleted p;
     badges := badges p |}.

(** [profile[key] = v] *)
Definition set_quantity (k : QuantityKey) (v : Z) (p : UserProfile) : UserProfile :=
  with_quantities p (fun k' => if QuantityKey_eq_dec k' k then v else quantity k' p).

(** ** Constant tables *)

Definition MAX_HISTORY_DISPLAY_ITEMS : nat := 5.

(** The own properties of the [WASTE_POINTS] object, in source order. *)
Definition WASTE_POINTS : list (WasteCategory * Z) :=
  [ ("ewaste", 100);
    ("plastic", 50);
    ("biowaste", 60);
    ("cardboard", 80);
    ("paper", 70);
    ("glass", 30);
    ("metal", 40);
    ("organic", 60);
    ("other", 10);
    ("plasticOther", 20);
    ("plasticPete", 55);
    ("plasticHdpe", 55);
    ("plasticPp", 45);
    ("plasticPs", 15);
    ("recyclable", 50);
    ("compostable", 60);
    ("non-recyclable", 10) ].

(** The entry of the points table for [c]: [None] when [WASTE_POINTS] has no
    own property named [c]. *)
Definition pointsFor (c : WasteCategory) : option Z :=
  match find (fun e => (fst e =? c)%string) WASTE_POINTS with
  | Some e => Some (snd e)
  | None => None
  end.

(** The names of the members that an object literal inherits from
    [Object.prototype]. *)
Definition Object_prototype_names : list string :=
  ["constructor"; "__defineGetter__"; "__defineSetter__"; "hasOwnProperty";
   "__lookupGetter__"; "__lookupSetter__"; "isPrototypeOf";
   "propertyIsEnumerable"; "toString"; "valueOf"; "__proto__"; "toLocaleString"].

Definition inherited_name (c : string) : bool :=
  existsb (String.eqb c) Object_prototype_names.

(** What indexing the table by a string yields. *)
Inductive TableValue : Type :=
  | OwnNumber (v : Z)
  | InheritedMember
  | Undefined.

(** [WASTE_POINTS[c]]: an own entry, else a member inherited from
    [Object.prototype] (a function, or the prototype object itself), else
    [undefined]. *)
Definition WASTE_POINTS_index (c : string) : TableValue :=
  match pointsFor c with
  | Some v => OwnNumber v
  | None => if inherited_name c then InheritedMember else Undefined
  end.

(** [WASTE_POINTS.c] for a key [c] written in the source, such as
    [WASTE_POINTS.other]. *)
Definition WASTE_POINTS_at (c : WasteCategory) : Z :=
  match pointsFor c with
  | Some v => v
  | None => 0
  end.

Definition CO2_SAVED_PER_POINT : Q := (1 # 10)%Q.

(** [targetForNext] is a number or [Infinity]. *)
Inductive Target : Type :=
  | Finite (t : Z)
  | Infinity.

(** The fields of [LevelInfo] that the level logic reads; the colour and
    image fields only feed the rendering. *)
Record LevelInfo : Type := mkLevel {
  name : string;
  minScore : Z;
  targetForNext : Target
}.

Definition Bronze : LevelInfo := mkLevel "Bronze" 0 (Finite 500).
Definition Silver : LevelInfo := mkLevel "Silver" 500 (Finite 1500).
Definition Gold : LevelInfo := mkLevel "Gold" 1500 (Finite 3000).
Definition Diamond : LevelInfo := mkLevel "Diamond" 3000 Infinity.

Definition LEVELS : list LevelInfo := [Bronze; Silver; Gold; Diamond].

(** An entry of [verticalLogCategories] (image and hint fields omitted). *)
Record LogCategory : Type := mkLogCategory {
  cat_id : WasteCategory;
  cat_name : string;
  cat_points : Z;
  quantityKey : QuantityKey
}.

Definition verticalLogCategories : list LogCategory :=
  [ mkLogCategory "cardboard" "Cardboard" (WASTE_POINTS_at "cardboard") KTotalCardboard;
    mkLogCategory "paper" "Paper" (WASTE_POINTS_at "paper") KTotalPaper;
    mkLogCategory "glass" "Glass" (WASTE_POINTS_at "glass") KTotalGlass;
    mkLogCategory "plasticPete" "Plastic - PETE" (WASTE_POINTS_at "plasticPete") KTotalPlasticPete;
    mkLogCategory "plasticHdpe" "Plastic - HDPE" (WASTE_POINTS_at "plasticHdpe") KTotalPlasticHdpe;
    mkLogCategory "plasticPp" "Plastic - PP" (WASTE_POINTS_at "plasticPp") KTotalPlasticPp;
    mkLogCategory "plasticPs" "Plastic - PS" (WASTE_POINTS_at "plasticPs") KTotalPlasticPs;
    mkLogCategory "plasticOther" "Plastic - Other" (WASTE_POINTS_at "plasticOther") KTotalPlasticOther;
    mkLogCategory "ewaste" "E-Waste" (WASTE_POINTS_at "ewaste") KTotalEwaste;
    mkLogCategory "biowaste" "Bio-Waste" (WASTE_POINTS_at "biowaste") KTotalBiowaste;
    mkLogCategory "metal" "Metal" (WASTE_POINTS_at "metal") KTotalMetal;
    mkLogCategory "other" "Trash" (WASTE_POINTS_at "other") KTotalOther ].

Definition defaultUserProfile : UserProfile :=
  {| id := "localUser";
     displayName := "Guest";
     email := "";
     avatar := "https://placehold.co/100x100.png?text=G";
     score := 0;
     co2Managed := 0;
     totalEwaste := 0;
     totalPlastic := 0;
     totalBiowaste := 0;
     totalCardboard := 0;
     totalPaper := 0;
     totalGlass := 0;
     totalMetal := 0;
     totalOrganic := 0;
     totalOther := 0;
     totalPlasticOther := 0;
     totalPlasticPete := 0;
     totalPlasticHdpe := 0;
     totalPlasticPp := 0;
     totalPlasticPs := 0;
     itemsClassified := 0;
     challengesCompleted := 0;
     badges := [] |}.

(** ** Page state *)

(** What [classifyWaste] resolves to. *)
Record ClassifyWasteOutput : Type := mkOutput {
  out_category : option WasteCategory;
  out_confidence : Q
}.

(** The outcome of awaiting [classifyWaste]: the promise rejects, with an
    [Error] carrying a message or with some other value, or it resolves,
    possibly to [null] or [undefined]. *)
Inductive AIResponse : Type :=
  | Rejected (message : option string)
  | Resolved (aiResult : option ClassifyWasteOutput).

(** The contents of [localStorage] that the page reads and writes. *)
Record LocalStorage : Type := mkStorage {
  ls_isLoggedIn : option string;
  ls_userEmail : option string;
  ls_userName : option string;
  ls_userData : option UserProfile;
  ls_history : option (list ClassificationRecord)
}.

(** The React state of [HomePage] together with [localStorage]. *)
Record HomePage : Type := mkHomePage {
  userData : UserProfile;
  recentClassifications : list ClassificationRecord;
  isClassifying : bool;
  classificationError : option string;
  isUploadModalOpen : bool;
  isLoggedIn : bool;
  storage : LocalStorage
}.

(** How a call of [handleClassify] ends.  The first three return [null] and
    are told apart by the toast shown: "Login Required", "Classification
    Failed" and "Classification Error". *)
Inductive ClassifyResult : Type :=
  | AuthRequired
  | InvalidResult
  | ClassificationFailed (errorMessage : string)
  | Classified (output : WasteCategory * Q).

(** Modelled from the spec: [getFromLocalStorage] of [@/lib/storage] is not
    in the sources; it returns the persisted value, or the given default when
    nothing usable is stored. *)
Definition getFromLocalStorage {A : Type} (stored : option A) (default : A) : A :=
  match stored with
  | Some v => v
  | None => default
  end.

(** Modelled from the spec: [saveToLocalStorage] of [@/lib/storage] is not in
    the sources; it persists the whole value, overwriting what was stored. *)
Definition saveUserData (v : UserProfile) (ls : LocalStorage) : LocalStorage :=
  mkStorage (ls_isLoggedIn ls) (ls_userEmail ls) (ls_userName ls) (Some v) (ls_history ls).

(** Modelled from the spec: [saveToLocalStorage] at the history key. *)
Definition saveHistory (h : list ClassificationRecord) (ls : LocalStorage) : LocalStorage :=
  mkStorage (ls_isLoggedIn ls) (ls_userEmail ls) (ls_userName ls) (ls_userData ls) (Some h).

(** ** The scoring engine *)

(** The value of [WASTE_POINTS[category] || WASTE_POINTS.other]: a number
    of points, or an inherited member, which is truthy and so is kept. *)
Inductive Award : Type :=
  | Points (n : Z)
  | NotANumber.

Definition award (c : WasteCategory) : Award :=
  match WASTE_POINTS_index c with
  | OwnNumber v => Points (num_or v (WASTE_POINTS_at "other"))
  | InheritedMember => NotANumber
  | Undefined => Points (WASTE_POINTS_at "other")
  end.

(** [WASTE_POINTS[category] || WASTE_POINTS.other] as a number of points:
    the points of [award c] whenever [c] is not an inherited name. *)
Definition pointsEarned (c : WasteCategory) : Z :=
  lookup_or (pointsFor c) (WASTE_POINTS_at "other").

(** [verticalLogCategories.find(cat => cat.id === category)] *)
Definition categoryDetails (c : WasteCategory) : option LogCategory :=
  find (fun cat => (cat_id cat =? c)%string) verticalLogCategories.

(** The spread [{...prevData, score, co2Managed, itemsClassified}]. *)
Definition bump_totals (prevData : UserProfile) (pts : Z) : UserProfile :=
  {| id := id prevData;
     displayName := displayName prevData;
     email := email prevData;
     avatar := avatar prevData;
     score := score prevData + pts;
     co2Managed := toFixed1 (co2Managed prevData + inject_Z pts * CO2_SAVED_PER_POINT)%Q;
     totalEwaste := totalEwaste prevData;
     totalPlastic := totalPlastic prevData;
     totalBiowaste := totalBiowaste prevData;
     totalCardboard := totalCardboard prevData;
     totalPaper := totalPaper prevData;
     totalGlass := totalGlass prevData;
     totalMetal := totalMetal prevData;
     totalOrganic := totalOrganic prevData;
     totalOther := totalOther prevData;
     totalPlasticOther := totalPlasticOther prevData;
     totalPlasticPete := totalPlasticPete prevData;
     totalPlasticHdpe := totalPlasticHdpe prevData;
     totalPlasticPp := totalPlasticPp prevData;
     totalPlasticPs := totalPlasticPs prevData;
     itemsClassified := itemsClassified prevData + 1;
     challengesCompleted := challengesCompleted prevData;
     badges := badges prevData |}.

(** The updater that [handleClassify] hands to [setUserData], for a category
    whose award is a number of points. *)
Definition applyClassification (prevData : UserProfile) (c : WasteCategory) : UserProfile :=
  let newUserDataState := bump_totals prevData (pointsEarned c) in
  match categoryDetails c with
  | Some details =>
      let keyToUpdate := quantityKey details in
      let currentSpecificQuantity := num_or (quantity keyToUpdate newUserDataState) 0 in
      set_quantity keyToUpdate (currentSpecificQuantity + 1) newUserDataState
  | None => newUserDataState
  end.

(** What the updater returns: a profile, or an object that is no profile any
    more.  With an award that is not a number, [prevData.score + pointsEarned]
    is a string and [co2Managed] is [NaN]. *)
Inductive UpdateResult : Type :=
  | UpdatedProfile (p : UserProfile)
  | NotAProfile.

(** The updater for every category the classifier may resolve to. *)
Definition updatedUserData (prevData : UserProfile) (c : WasteCategory) : UpdateResult :=
  match award c with
  | Points _ => UpdatedProfile (applyClassification prevData c)
  | NotANumber => NotAProfile
  end.

(** ** Reconciliation with the login state *)

(** [hint || fallback] on a [string | null]. *)
Definition str_or (hint : option string) (fallback : string) : string :=
  match hint with
  | Some EmptyString => fallback
  | Some s => s
  | None => fallback
  end.

(** [hint && stored !== hint] *)
Definition hint_differs (hint : option string) (stored : string) : bool :=
  match hint with
  | Some h => truthy hint && negb (stored =? h)%string
  | None => false
  end.

(** [hint && stored === hint] *)
Definition hint_matches (hint : option string) (stored : string) : bool :=
  match hint with
  | Some h => truthy hint && (stored =? h)%string
  | None => false
  end.

(** The condition under which a logged-in profile is rebuilt. *)
Definition needs_sync (stored : UserProfile) (userEmail userName : option string) : bool :=
  (id stored =? "localUser")%string
  || hint_differs userEmail (email stored)
  || hint_differs userName (displayName stored).

(** The profile literal built when local data needs a sync. *)
Definition reinitialized (stored : UserProfile) (userEmail userName : option string)
  : UserProfile :=
  let newName := str_or userName (if truthy userEmail then before_at (str_or userEmail "") else "User") in
  let known := hint_matches userEmail (email stored) in
  let keep (f : UserProfile -> Z) : Z := if known then f stored else 0 in
  {| id := str_or userEmail "firebaseUser";
     displayName := newName;
     email := str_or userEmail "";
     avatar := "https://placehold.co/100x100.png?text=" ++ toUpperCase (substring 0 2 newName);
     score := keep score;
     co2Managed := if known then co2Managed stored else 0;
     totalEwaste := keep totalEwaste;
     totalPlastic := keep totalPlastic;
     totalBiowaste := keep totalBiowaste;
     totalCardboard := keep totalCardboard;
     totalPaper := keep totalPaper;
     totalGlass := keep totalGlass;
     totalMetal := keep totalMetal;
     totalOrganic := keep totalOrganic;
     totalOther := keep totalOther;
     totalPlasticOther := keep totalPlasticOther;
     totalPlasticPete := keep totalPlasticPete;
     totalPlasticHdpe := keep totalPlasticHdpe;
     totalPlasticPp := keep totalPlasticPp;
     totalPlasticPs := keep totalPlasticPs;
     itemsClassified := keep itemsClassified;
     challengesCompleted := keep challengesCompleted;
     badges := if known then badges stored else [] |}.

(** The profile [checkLoginStatus] settles on, from the login flag, the
    stored profile and the identity hints. *)
Definition reconcileOnAuthChange (loggedIn : bool) (storedUserData : UserProfile)
    (userEmail userName : option string) : UserProfile :=
  if loggedIn then
    if needs_sync storedUserData userEmail userName
    then reinitialized storedUserData userEmail userName
    else storedUserData
  else
    if negb (id storedUserData =? "localUser")%string
    then defaultUserProfile
    else storedUserData.

(** [history.sort((a, b) => b.timestamp - a.timestamp)]: a stable sort, most
    recent first. *)
Fixpoint insert_by_time (x : ClassificationRecord) (l : list ClassificationRecord)
  : list ClassificationRecord :=
  match l with
  | [] => [x]
  | y :: rest =>
      if timestamp y <=? timestamp x then x :: l else y :: insert_by_time x rest
  end.

Definition sort_by_time (l : list ClassificationRecord) : list ClassificationRecord :=
  fold_right insert_by_time [] l.

(** [array.slice(0, n)] *)
Definition slice0 {A : Type} (n : nat) (l : list A) : list A := firstn n l.

Definition checkLoginStatus (st : HomePage) : HomePage :=
  let ls := storage st in
  let loggedIn :=
    match ls_isLoggedIn ls with
    | Some v => (v =? "true")%string
    | None => false
    end in
  let storedUserData :=
    reconcileOnAuthChange loggedIn
      (getFromLocalStorage (ls_userData ls) defaultUserProfile)
      (ls_userEmail ls) (ls_userName ls) in
  let history := getFromLocalStorage (ls_history ls) [] in
  let sortedHistory := sort_by_time history in
  {| userData := storedUserData;
     recentClassifications := slice0 MAX_HISTORY_DISPLAY_ITEMS sortedHistory;
     isClassifying := isClassifying st;
     classificationError := classificationError st;
     isUploadModalOpen := isUploadModalOpen st;
     isLoggedIn := loggedIn;
     storage := saveUserData storedUserData ls |}.

(** ** The classification handler *)

(** [!aiResult || !aiResult.category] fails; otherwise the category. *)
Definition usable_category (aiResult : option ClassifyWasteOutput)
  : option (WasteCategory * Q) :=
  match aiResult with
  | Some r =>
      if truthy (out_category r)
      then Some (str_or (out_category r) "", out_confidence r)
      else None
  | None => None
  end.

Definition invalid_result_message : string :=
  "Could not classify the image. The AI returned no result or an invalid category.".

Definition unknown_error_message : string :=
  "An unknown error occurred during classification.".

(** [handleClassify(imageDataUri, categoryUserInitiatedWith)].  [ai] is what
    awaiting [classifyWaste] yields and [now1], [now2] are the two readings
    of [Date.now()].  The points of the record and the profile of the
    returned state are those of a category whose award is a number
    ([updatedUserData] tells when the update is a profile). *)
Definition handleClassify (st : HomePage) (image : string)
    (categoryUserInitiatedWith : option string)
    (ai : AIResponse) (now1 now2 : Z) : HomePage * ClassifyResult :=
  if negb (isLoggedIn st) then (st, AuthRequired)
  else
    match ai with
    | Rejected message =>
        let errorMessage :=
          match message with
          | Some m => m
          | None => unknown_error_message
          end in
        ({| userData := userData st;
            recentClassifications := recentClassifications st;
            isClassifying := false;
            classificationError := Some errorMessage;
            isUploadModalOpen := isUploadModalOpen st;
            isLoggedIn := isLoggedIn st;
            storage := storage st |},
         ClassificationFailed errorMessage)
    | Resolved aiResult =>
        match usable_category aiResult with
        | None =>
            ({| userData := userData st;
                recentClassifications := recentClassifications st;
                isClassifying := false;
                classificationError := Some invalid_result_message;
                isUploadModalOpen := isUploadModalOpen st;
                isLoggedIn := isLoggedIn st;
                storage := storage st |},
             InvalidResult)
        | Some (aiDeterminedSpecificCategory, classificationConfidence) =>
            let newRecord :=
              {| rec_id := toString now1;
                 imageDataUri := image;
                 category := aiDeterminedSpecificCategory;
                 confidence := classificationConfidence;
                 timestamp := now2;
                 points := pointsEarned aiDeterminedSpecificCategory |} in
            let currentHistory := getFromLocalStorage (ls_history (storage st)) [] in
            let updatedHistory := slice0 50 (newRecord :: currentHistory) in
            let newUserDataState :=
              applyClassification (userData st) aiDeterminedSpecificCategory in
            ({| userData := newUserDataState;
                recentClassifications := slice0 MAX_HISTORY_DISPLAY_ITEMS updatedHistory;
                isClassifying := false;
                classificationError := None;
                isUploadModalOpen := false;
                isLoggedIn := isLoggedIn st;
                storage := saveUserData newUserDataState
                             (saveHistory updatedHistory (storage st)) |},
             Classified (aiDeterminedSpecificCategory, classificationConfidence))
        end
    end.

(** One classification request as the page receives it. *)
Record Request : Type := mkRequest {
  req_image : string;
  req_hint : option string;
  req_ai : AIResponse;
  req_now1 : Z;
  req_now2 : Z
}.

Definition serve (st : HomePage) (r : Request) : HomePage :=
  fst (handleClassify st (req_image r) (req_hint r) (req_ai r) (req_now1 r) (req_now2 r)).

(** The page after a sequence of classification requests. *)
Definition serve_all (st : HomePage) (rs : list Request) : HomePage :=
  fold_left serve rs st.

(** The request succeeds: the classifier resolves with a usable category. *)
Definition succeeds (r : Request) : bool :=
  match req_ai r with
  | Resolved aiResult =>
      match usable_category aiResult with
      | Some _ => true
      | None => false
      end
  | Rejected _ => false
  end.

(** The persisted history as the page reads it. *)
Definition history (st : HomePage) : list ClassificationRecord :=
  getFromLocalStorage (ls_history (storage st)) [].

(** ** Levels *)

(** The loop of [getCurrentLevel]: tiers [i-1] down to [0] are examined. *)
Fixpoint scan_levels (i : nat) (score : Z) : option LevelInfo :=
  match i with
  | O => None
  | S j =>
      match nth_error LEVELS j with
      | Some l => if score >=? minScore l then Some l else scan_levels j score
      | None => scan_levels j score
      end
  end.

Definition getCurrentLevel (score : Z) : LevelInfo :=
  match scan_levels (List.length LEVELS) score with
  | Some l => l
  | None => nth 0 LEVELS Bronze
  end.

(** The position of a tier in [LEVELS], looked up by name. *)
Fixpoint index_of (n : string) (ls : list LevelInfo) : nat :=
  match ls with
  | [] => O
  | l :: rest => if (name l =? n)%string then O else S (index_of n rest)
  end.

Definition tier (l : LevelInfo) : nat := index_of (name l) LEVELS.

(** The value of [scorePercentage] that the page computes from the score and
    the current level. *)
Definition scorePercentage (score : Z) (currentLevel : LevelInfo) : Q :=
  match targetForNext currentLevel with
  | Finite target =>
      let pointsEarnedInLevel := Z.max 0 (score - minScore currentLevel) in
      let pointsToNextLevelRange := target - minScore currentLevel in
      if pointsToNextLevelRange >? 0
      then Qmin ((inject_Z pointsEarnedInLevel / inject_Z pointsToNextLevelRange) * 100) 100
      else if score >=? minScore currentLevel then 100%Q else 0%Q
  | Infinity => 100%Q
  end.

(** The categories that have points but no entry in
    [verticalLogCategories]. *)
Definition unmapped_known_categories : list WasteCategory :=
  ["plastic"; "organic"; "recyclable"; "compostable"; "non-recyclable"].

(** The record [handleClassify] builds for a classification. *)
Definition record_of (image : string) (c : WasteCategory) (conf : Q) (now1 now2 : Z)
  : ClassificationRecord :=
  {| rec_id := toString now1;
     imageDataUri := image;
     category := c;
     confidence := conf;
     timestamp := now2;
     points := pointsEarned c |}.

(** The profile, what is persisted and the displayed history are the same in
    both states. *)
Definition untouched (st st' : HomePage) : Prop :=
  userData st' = userData st
  /\ storage st' = storage st
  /\ recentClassifications st' = recentClassifications st.

(** The counters of two profiles agree. *)
Definition same_counters (p q : UserProfile) : Prop :=
  score p = score q
  /\ co2Managed p = co2Managed q
  /\ itemsClassified p = itemsClassified q
  /\ (forall k, quantity k p = quantity k q)
  /\ challengesCompleted p = challengesCompleted q
  /\ badges p = badges q.

(** The page as first rendered, over a given [localStorage]. *)
Definition initial_page (ls : LocalStorage) : HomePage :=
  {| userData := defaultUserProfile;
     recentClassifications := [];
     isClassifying := false;
     classificationError := None;
     isUploadModalOpen := false;
     isLoggedIn := false;
     storage := ls |}.

(** A page after its first [checkLoginStatus], with a user logged in. *)
Definition signed_in_page : HomePage :=
  checkLoginStatus
    (initial_page (mkStorage (Some "true") (Some "ann@example.org") (Some "Ann") None None)).

(** A page after its first [checkLoginStatus], with nobody logged in. *)
Definition guest_page : HomePage :=
  checkLoginStatus (initial_page (mkStorage None None None None None)).

(** A request on which the classifier answers "glass", at time [n]. *)
Definition glass_request (n : Z) : Request :=
  mkRequest "data:image/png;base64,AAAA" None
    (Resolved (Some (mkOutput (Some "glass") (9 # 10)))) n n.

(** Fifty such requests, at times 1 to 50. *)
Definition fifty_requests : list Request :=
  map (fun n => glass_request (Z.of_nat n)) (seq 1 50).

(** A guest profile that carries progress. *)
Definition guest_with_progress : UserProfile :=
  applyClassification defaultUserProfile "cardboard".

(** The profile of the logged-in page after one classification. *)
Definition known_user : UserProfile :=
  applyClassification (userData signed_in_page) "cardboard".

(** ** Notions used by the further properties *)

(** What is persisted as the profile is the profile in memory. *)
Definition in_sync (st : HomePage) : Prop :=
  ls_userData (storage st) = Some (userData st).

(** The sum of all per-category counters of a profile. *)
Definition total_quantities (p : UserProfile) : Z :=
  fold_right (fun k acc => quantity k p + acc) 0 all_quantity_keys.

(** The category a request resolves to, when it succeeds. *)
Definition resolved_category (r : Request) : option WasteCategory :=
  match req_ai r with
  | Resolved aiResult =>
      match usable_category aiResult with
      | Some (c, _) => Some c
      | None => None
      end
  | Rejected _ => None
  end.

(** The categories of the requests of a run that succeed, in order. *)
Fixpoint resolved_categories (rs : list Request) : list WasteCategory :=
  match rs with
  | [] => []
  | r :: rest =>
      match resolved_category r with
      | Some c => c :: resolved_categories rest
      | None => resolved_categories rest
      end
  end.

(** Newest first: no record is followed by a more recent one. *)
Definition newest_first (l : list ClassificationRecord) : Prop :=
  StronglySorted (fun a b => timestamp b <= timestamp a) l.

(** The readings of the clock never precede the newest record so far. *)
Fixpoint clock_moves_on (latest : Z) (rs : list Request) : Prop :=
  match rs with
  | [] => True
  | r :: rest =>
      match resolved_category r with
      | Some _ => latest <= req_now2 r /\ clock_moves_on (req_now2 r) rest
      | None => clock_moves_on latest rest
      end
  end.

(** [localStorage.getItem('isLoggedIn') === 'true'] *)
Definition login_flag (ls : LocalStorage) : bool :=
  match ls_isLoggedIn ls with
  | Some v => (v =? "true")%string
  | None => false
  end.

(** The page agrees with [localStorage]: its login flag is the stored one,
    its profile is the persisted one, and reconciling it again with the
    stored identity hints gives it back. *)
Definition reconciled (st : HomePage) : Prop :=
  isLoggedIn st = login_flag (storage st)
  /\ in_sync st
  /\ reconcileOnAuthChange (isLoggedIn st) (userData st)
       (ls_userEmail (storage st)) (ls_userName (storage st))
     = userData st.

(** The CO2 estimate is one tenth of the score. *)
Definition co2_matches_score (p : UserProfile) : Prop :=
  (co2Managed p == Qmake (score p) 10)%Q.

(** The sum of a list of integers. *)
Definition sum_list (l : list Z) : Z := fold_right Z.add 0 l.

(** The category has an entry in [verticalLogCategories]. *)
Definition is_mapped (c : WasteCategory) : bool :=
  match categoryDetails c with
  | Some _ => true
  | None => false
  end.

(** None of the categories is an inherited name: each earns a number of
    points. *)
Definition numeric_awards (cs : list WasteCategory) : bool :=
  forallb (fun c => negb (inherited_name c)) cs.

(** The updater applied for each category in turn, for as long as it returns
    a profile. *)
Fixpoint updatedUserData_all (p : UserProfile) (cs : list WasteCategory) : UpdateResult :=
  match cs with
  | [] => UpdatedProfile p
  | c :: rest =>
      match updatedUserData p c with
      | UpdatedProfile q => updatedUserData_all q rest
      | NotAProfile => NotAProfile
      end
  end.

(** * The detailed dashboard page

    The data computations of [DetailedDashboardPage] in the same source
    file.  The records carry the fields that these computations read. *)

(** ** The simulated real-time e-waste series *)

Definition MAX_REAL_TIME_EWASTE_POINTS : nat := 20.
Definition REAL_TIME_EWASTE_UPDATE_INTERVAL : Z := 3000.

Record RealTimeEWasteDataPoint : Type := mkRealTimePoint {
  rt_timestamp : string;
  rt_volume : Z
}.

(** [array.slice(-n)]: the last [n] elements, all of them when there are
    fewer. *)
Definition slice_last {A : Type} (n : nat) (l : list A) : list A :=
  skipn (List.length l - n) l.

(** [Math.floor(Math.random() * scale) + base], for the value [random] that
    [Math.random()] returned. *)
Definition random_volume (random : Q) (scale base : Z) : Z :=
  Qfloor (random * inject_Z scale) + base.

Section RealTimeSeries.

(** [format(date, 'HH:mm:ss')], for a date given in milliseconds: the text
    depends on the time zone of the browser. *)
Variable format_HHmmss : Z -> string.

(** [addSeconds(date, amount)] *)
Definition addSeconds (date amount : Z) : Z := date + amount * 1000.

(** The five points the effect starts from; [random i] is the [i]-th value
    drawn. *)
Definition initialRealTimeData (initialTimestamp : Z) (random : Z -> Q)
  : list RealTimeEWasteDataPoint :=
  slice_last MAX_REAL_TIME_EWASTE_POINTS
    (map (fun i =>
            {| rt_timestamp :=
                 format_HHmmss
                   (addSeconds initialTimestamp
                      (i * - (REAL_TIME_EWASTE_UPDATE_INTERVAL / 1000) * (5 - i)));
               rt_volume := random_volume (random i) 20 5 |})
         (map Z.of_nat (seq 0 5))).

(** The updater that the interval hands to [setRealTimeEWasteData]. *)
Definition realTimeTick (prevData : list RealTimeEWasteDataPoint) (now : Z) (random : Q)
  : list RealTimeEWasteDataPoint :=
  let newPoint :=
    {| rt_timestamp := format_HHmmss now;
       rt_volume := random_volume random 70 10 |} in
  let updatedData := (prevData ++ [newPoint])%list in
  slice_last MAX_REAL_TIME_EWASTE_POINTS updatedData.

(** The series after a sequence of interval ticks, each with its clock
    reading and its random value. *)
Definition realTimeTicks (data : list RealTimeEWasteDataPoint) (ticks : list (Z * Q))
  : list RealTimeEWasteDataPoint :=
  fold_left (fun d t => realTimeTick d (fst t) (snd t)) ticks data.

End RealTimeSeries.

(** A value that [Math.random()] can return. *)
Definition is_random (r : Q) : Prop := (0 <= r /\ r < 1)%Q.

(** ** The fill-level history of bin 1 *)

(** An element of [fill_level_history] as the filter sees it: [None] is a
    falsy element (a hole of the array), [Some None] an element whose
    [fill_level] is not a number, [Some (Some v)] one whose [fill_level] is
    the number [v]. *)
Definition RawHistoryItem : Type := option (option Q).

Record Bin1FillLevelHistoryPoint : Type := mkHistoryPoint {
  hp_index : Z;
  hp_fill_level : Q
}.

(** [item && typeof item.fill_level === 'number' && item.fill_level > 0] *)
Definition positive_reading (item : RawHistoryItem) : bool :=
  match item with
  | Some (Some v) => negb (Qle_bool v 0)
  | _ => false
  end.

(** [item.fill_level] of an element that passed the filter. *)
Definition reading (item : RawHistoryItem) : Q :=
  match item with
  | Some (Some v) => v
  | _ => 0%Q
  end.

(** [array.map((item, i) => f(item, i))], counting from [i]. *)
Fixpoint map_indexed {A B : Type} (f : A -> Z -> B) (i : Z) (l : list A) : list B :=
  match l with
  | [] => []
  | x :: rest => f x i :: map_indexed f (i + 1) rest
  end.

(** What the listener on [/bin1] passes to [setBin1HistoryData].
    [fill_level_history] is [None] when the node is missing, has no such
    field, or the field is not an array. *)
Definition bin1ChartData (fill_level_history : option (list RawHistoryItem))
  : list Bin1FillLevelHistoryPoint :=
  match fill_level_history with
  | Some rawHistory =>
      if (List.length rawHistory =? 0)%nat then []
      else
        let filteredHistory := filter positive_reading rawHistory in
        map_indexed
          (fun item chartIndex =>
             {| hp_index := chartIndex; hp_fill_level := reading item |})
          0 filteredHistory
  | None => []
  end.

(** ** Smart bins *)

Record BinData : Type := mkBin {
  bin_id : string;
  bin_fill_level : Q;
  bin_notify : bool;
  bin_last_updated : option Z;
  bin_battery_level : option Q
}.

Definition MILLISECONDS_IN_HOUR : Z := 3600000.

(** [differenceInHours(dateLeft, dateRight)] of date-fns: the difference in
    milliseconds over the milliseconds of an hour, truncated toward zero. *)
Definition differenceInHours (dateLeft dateRight : Z) : Z :=
  Z.quot (dateLeft - dateRight) MILLISECONDS_IN_HOUR.

(** [bin.last_updated && differenceInHours(new Date(), new Date(bin.last_updated)) > 24] *)
Definition isOffline (now : Z) (bin : BinData) : bool :=
  match bin_last_updated bin with
  | Some t => negb (t =? 0) && (differenceInHours now t >? 24)
  | None => false
  end.

Definition getBinStatusText (now : Z) (bin : BinData) : string :=
  if isOffline now bin then "Offline"
  else if bin_notify bin then "Notify"
  else if Qle_bool 90 (bin_fill_level bin) then "Full"
  else if Qle_bool 70 (bin_fill_level bin) then "Near Full"
  else if Qle_bool 20 (bin_fill_level bin) then "Filling"
  else "Empty".

(** [bin.notify || bin.fill_level >= 90] *)
Definition needs_emptying (bin : BinData) : bool :=
  bin_notify bin || Qle_bool 90 (bin_fill_level bin).

Definition totalSmartBins (smartBinsData : list BinData) : nat :=
  List.length smartBinsData.

Definition fullSmartBins (smartBinsData : list BinData) : nat :=
  List.length (filter needs_emptying smartBinsData).

(** [typeof bin.battery_level === 'number' && bin.battery_level < 20] *)
Definition low_battery (bin : BinData) : bool :=
  match bin_battery_level bin with
  | Some b => negb (Qle_bool 20 b)
  | None => false
  end.

Definition lowBatterySmartBins (smartBinsData : list BinData) : nat :=
  List.length (filter low_battery smartBinsData).

(** The status text announces a bin to empty. *)
Definition says_to_empty (now : Z) (bin : BinData) : bool :=
  (getBinStatusText now bin =? "Notify")%string
  || (getBinStatusText now bin =? "Full")%string.

(** ** General waste entries *)

(** A logged waste entry.  [we_timestamp] is [None] when the stored value is
    not a number, [we_quantity] is [None] when [typeof entry.quantity] is
    not ['number']. *)
Record WasteEntry : Type := mkWasteEntry {
  we_id : string;
  we_type : WasteCategory;
  we_timestamp : option Z;
  we_quantity : option Q;
  we_unit : string
}.

(** The selected [DateRange]: each end may be missing. *)
Record DateRange : Type := mkDateRange {
  range_from : option Z;
  range_to : option Z
}.

(** The predicate of the date filter, for a range with both ends. *)
Definition in_date_range (from to : Z) (entry : WasteEntry) : bool :=
  match we_timestamp entry with
  | Some t => if t =? 0 then false else (from <=? t) && (t <=? to)
  | None => false
  end.

(** The effect that computes [filteredData]. *)
Definition filterWasteData (liveWasteData : list WasteEntry)
    (dateRange : option DateRange) (selectedWasteType : string) : list WasteEntry :=
  let data :=
    match dateRange with
    | Some (mkDateRange (Some from) (Some to)) =>
        filter (in_date_range from to) liveWasteData
    | _ => liveWasteData
    end in
  if negb (selectedWasteType =? "all")%string
  then filter (fun entry => (we_type entry =? selectedWasteType)%string) data
  else data.

(** The entries of [generalChartConfig]: key, label and colour. *)
Definition generalChartConfig : list (string * (string * option string)) :=
  [ ("items", ("Items/Kg", None));
    ("ewaste", ("E-Waste", Some "hsl(var(--chart-1))"));
    ("plastic", ("Plastic", Some "hsl(var(--chart-2))"));
    ("biowaste", ("Bio-Waste", Some "hsl(var(--chart-3))"));
    ("organic", ("Organic", Some "hsl(var(--chart-3))"));
    ("cardboard", ("Cardboard", Some "hsl(var(--chart-4))"));
    ("paper", ("Paper", Some "hsl(var(--chart-5))"));
    ("glass", ("Glass", Some "hsl(var(--chart-1))"));
    ("metal", ("Metal", Some "hsl(var(--chart-2))"));
    ("other", ("Other", Some "hsl(var(--muted))"));
    ("plasticPete", ("Plastic PETE", Some "hsl(var(--chart-2))"));
    ("plasticHdpe", ("Plastic HDPE", Some "hsl(var(--chart-2))"));
    ("plasticPp", ("Plastic PP", Some "hsl(var(--chart-2))"));
    ("plasticPs", ("Plastic PS", Some "hsl(var(--chart-2))"));
    ("plasticOther", ("Plastic Other", Some "hsl(var(--chart-2))"));
    ("recyclable", ("Recyclable", Some "hsl(var(--chart-1))"));
    ("compostable", ("Compostable", Some "hsl(var(--chart-3))"));
    ("non-recyclable", ("Non-Recyclable", Some "hsl(var(--chart-5))")) ].

(** [generalChartConfig[key]?.color] *)
Definition config_color (key : string) : option string :=
  match find (fun e => (fst e =? key)%string) generalChartConfig with
  | Some e => snd (snd e)
  | None => None
  end.

(** [generalChartConfig[type]?.color || generalChartConfig.other.color] *)
Definition fill_color (type : string) : string :=
  str_or (config_color type) (str_or (config_color "other") "").

Record DistributionSlice : Type := mkSlice {
  slice_name : WasteCategory;
  slice_value : Q;
  slice_fill : string
}.

(** [typeof entry.quantity === 'number' ? entry.quantity : 0] *)
Definition quantity_of (entry : WasteEntry) : Q :=
  match we_quantity entry with
  | Some q => q
  | None => 0%Q
  end.

(** [existing.value += quantity] on the first slice named [type]. *)
Fixpoint add_to_existing (type : string) (quantity : Q) (acc : list DistributionSlice)
  : list DistributionSlice :=
  match acc with
  | [] => []
  | item :: rest =>
      if (slice_name item =? type)%string
      then mkSlice (slice_name item) (slice_value item + quantity)%Q (slice_fill item) :: rest
      else item :: add_to_existing type quantity rest
  end.

(** The reducer of [categoryDistribution]. *)
Definition distribution_step (acc : list DistributionSlice) (entry : WasteEntry)
  : list DistributionSlice :=
  match find (fun item => (slice_name item =? we_type entry)%string) acc with
  | Some existing => add_to_existing (we_type entry) (quantity_of entry) acc
  | None =>
      (acc ++ [mkSlice (we_type entry) (quantity_of entry) (fill_color (we_type entry))])%list
  end.

Definition categoryDistribution (filteredData : list WasteEntry) : list DistributionSlice :=
  fold_left distribution_step filteredData [].

(** The names that count as recycled in [recycledPercentage]. *)
Definition recycled_names : list string :=
  ["recyclable"; "plastic"; "paper"; "cardboard"; "glass"; "metal";
   "plasticPete"; "plasticHdpe"; "plasticPp"].

(** [list.reduce((sum, cat) => sum + cat.value, 0)] *)
Definition sum_values (l : list DistributionSlice) : Q :=
  fold_left (fun sum cat => (sum + slice_value cat)%Q) l 0%Q.

(** [x.toFixed(0)]: the nearest integer, a tie going away from zero, with
    the sign of [x] in front. *)
Definition toFixed0 (x : Q) : string :=
  if Qle_bool 0 x
  then toString (Qfloor (x + (1 # 2)))
  else "-" ++ toString (Qfloor (- x + (1 # 2))).

(** The result of a division: a finite number, an infinity or [NaN]. *)
Inductive JsNumber : Type :=
  | Number (q : Q)
  | PositiveInfinity
  | NegativeInfinity
  | NaN.

(** [a / b]: a zero divisor gives [NaN] for a zero dividend and an infinity
    otherwise. *)
Definition js_divide (a b : Q) : JsNumber :=
  if Qeq_bool b 0 then
    if Qeq_bool a 0 then NaN
    else if Qle_bool 0 a then PositiveInfinity else NegativeInfinity
  else Number (a / b).

(** [x * 100] *)
Definition js_times_100 (x : JsNumber) : JsNumber :=
  match x with
  | Number q => Number (q * 100)
  | PositiveInfinity => PositiveInfinity
  | NegativeInfinity => NegativeInfinity
  | NaN => NaN
  end.

(** [x.toFixed(0)] *)
Definition js_toFixed0 (x : JsNumber) : string :=
  match x with
  | Number q => toFixed0 q
  | PositiveInfinity => "Infinity"
  | NegativeInfinity => "-Infinity"
  | NaN => "NaN"
  end.

Definition recycledPercentage (categoryDistribution : list DistributionSlice) : string :=
  let totalValueForRecycledPercentage := sum_values categoryDistribution in
  if Qeq_bool totalValueForRecycledPercentage 0 then "0"
  else
    let recycledValue :=
      sum_values
        (filter (fun cat => existsb (String.eqb (slice_name cat)) recycled_names)
           categoryDistribution) in
    js_toFixed0 (js_times_100 (js_divide recycledValue totalValueForRecycledPercentage)).

(** [fold_left Qplus] over a non-empty list, from its first element. *)
Definition sum_from_first (qs : list Q) : option Q :=
  match qs with
  | [] => None
  | q :: rest => Some (fold_left Qplus rest q)
  end.

(** The quantities of the entries of a type, in order. *)
Definition quantities_of_type (type : string) (data : list WasteEntry) : list Q :=
  map quantity_of (filter (fun entry => (we_type entry =? type)%string) data).

(** The value of the first slice named [type]. *)
Definition first_value (type : string) (acc : list DistributionSlice) : option Q :=
  option_map slice_value (find (fun item => (slice_name item =? type)%string) acc).

(** A quantity added to the value a type has so far, if any. *)
Definition add_quantity (o : option Q) (q : Q) : option Q :=
  Some (match o with Some v => (v + q)%Q | None => q end).

(** * The leaderboard page *)

(** What the rank cell shows: a number or a text. *)
Inductive RankCell : Type :=
  | RankNumber (n : Z)
  | RankText (s : string).

(** [array.findIndex(f)] *)
Fixpoint findIndex {A : Type} (f : A -> bool) (l : list A) : Z :=
  match l with
  | [] => -1
  | x :: rest =>
      if f x then 0
      else let i := findIndex f rest in if i =? -1 then -1 else i + 1
  end.

Definition getRankForCurrentUser (currentUserStats : option UserProfile)
    (leaderboardData : list UserProfile) : RankCell :=
  match currentUserStats with
  | None => RankText "N/A"
  | Some stats =>
      if (id stats =? "")%string then RankText "N/A"
      else
        let rankIndex :=
          findIndex (fun user => (id user =? id stats)%string) leaderboardData in
        if negb (rankIndex =? -1) then RankNumber (rankIndex + 1)
        else RankText "N/A (Not in Top 10)"
  end.

(** * Properties *)

(** ** The points table *)

Lemma num_or_zero (x : Z) : num_or x 0 = x.
Proof. unfold num_or. destruct (x =? 0) eqn:E; [apply Z.eqb_eq in E; lia | reflexivity]. Qed.

Lemma pointsFor_listed (c : WasteCategory) (v : Z) :
  pointsFor c = Some v -> In (c, v) WASTE_POINTS.
Proof.
  unfold pointsFor. intro H.
  destruct (find (fun e => (fst e =? c)%string) WASTE_POINTS) as [[c' v']|] eqn:F;
    [|discriminate].
  apply find_some in F. destruct F as [Hin Heq].
  apply String.eqb_eq in Heq. simpl in Heq, H.
  injection H as ->. subst c'. exact Hin.
Qed.

Lemma pointsFor_range (c : WasteCategory) (v : Z) :
  pointsFor c = Some v -> 10 <= v <= 100.
Proof.
  intro H. apply pointsFor_listed in H. unfold WASTE_POINTS in H. simpl in H.
  repeat (destruct H as [H|H]; [injection H as _ <-; lia|]).
  contradiction.
Qed.

Lemma pointsEarned_known (c : WasteCategory) (v : Z) :
  pointsFor c = Some v -> pointsEarned c = v.
Proof.
  intro H. pose proof (pointsFor_range c v H) as R.
  unfold pointsEarned. rewrite H. unfold lookup_or, num_or.
  destruct (v =? 0) eqn:E; [apply Z.eqb_eq in E; lia | reflexivity].
Qed.

Lemma pointsEarned_unknown (c : WasteCategory) :
  pointsFor c = None -> pointsEarned c = 10.
Proof. intro H. unfold pointsEarned. rewrite H. reflexivity. Qed.

Lemma pointsEarned_at_least_10 (c : WasteCategory) : 10 <= pointsEarned c.
Proof.
  destruct (pointsFor c) as [v|] eqn:E.
  - rewrite (pointsEarned_known c v E). apply (pointsFor_range c v E).
  - rewrite (pointsEarned_unknown c E). lia.
Qed.

Lemma inherited_name_listed (c : string) :
  inherited_name c = true <-> In c Object_prototype_names.
Proof.
  unfold inherited_name. rewrite existsb_exists. split.
  - intros (n & I & E). apply String.eqb_eq in E. subst n. exact I.
  - intro I. exists c. split; [exact I | apply String.eqb_refl].
Qed.

Lemma inherited_name_has_no_entry (c : string) :
  inherited_name c = true -> pointsFor c = None /\ categoryDetails c = None.
Proof.
  intro H. apply inherited_name_listed in H.
  unfold Object_prototype_names in H. simpl in H.
  repeat (destruct H as [H|H]; [subst c; split; reflexivity|]).
  contradiction.
Qed.

Lemma award_of_inherited_name (c : WasteCategory) :
  inherited_name c = true -> award c = NotANumber.
Proof.
  intro H. unfold award, WASTE_POINTS_index.
  destruct (inherited_name_has_no_entry c H) as [-> _]. rewrite H. reflexivity.
Qed.

Lemma award_of_other_name (c : WasteCategory) :
  inherited_name c = false -> award c = Points (pointsEarned c).
Proof.
  intro H. unfold award, WASTE_POINTS_index, pointsEarned, lookup_or.
  destruct (pointsFor c) as [v|]; [reflexivity|]. rewrite H. reflexivity.
Qed.

Lemma updatedUserData_profile (prevData : UserProfile) (c : WasteCategory) (q : UserProfile) :
  updatedUserData prevData c = UpdatedProfile q
  <-> inherited_name c = false /\ q = applyClassification prevData c.
Proof.
  unfold updatedUserData. destruct (inherited_name c) eqn:I.
  - rewrite (award_of_inherited_name c I).
    split; [discriminate | intros [F _]; discriminate F].
  - rewrite (award_of_other_name c I). split.
    + intro E. injection E as <-. split; reflexivity.
    + intros [_ ->]. reflexivity.
Qed.

(** ** What [applyClassification] changes, field by field *)

Section ApplyClassification.

Variable prevData : UserProfile.
Variable c : WasteCategory.

Lemma apply_score :
  score (applyClassification prevData c) = score prevData + pointsEarned c.
Proof.
  unfold applyClassification.
  destruct (categoryDetails c); reflexivity.
Qed.

Lemma apply_itemsClassified :
  itemsClassified (applyClassification prevData c) = itemsClassified prevData + 1.
Proof.
  unfold applyClassification.
  destruct (categoryDetails c); reflexivity.
Qed.

Lemma apply_co2Managed :
  co2Managed (applyClassification prevData c)
  = toFixed1 (co2Managed prevData + inject_Z (pointsEarned c) * (1 # 10))%Q.
Proof.
  unfold applyClassification.
  destruct (categoryDetails c); reflexivity.
Qed.

Lemma apply_other_fields :
  let next := applyClassification prevData c in
  id next = id prevData /\ displayName next = displayName prevData
  /\ email next = email prevData /\ avatar next = avatar prevData
  /\ challengesCompleted next = challengesCompleted prevData
  /\ badges next = badges prevData.
Proof.
  unfold applyClassification.
  destruct (categoryDetails c); repeat split; reflexivity.
Qed.

Lemma apply_quantity_mapped (details : LogCategory) (k : QuantityKey) :
  categoryDetails c = Some details ->
  quantity k (applyClassification prevData c)
  = if QuantityKey_eq_dec k (quantityKey details)
    then quantity k prevData + 1 else quantity k prevData.
Proof.
  intro H. unfold applyClassification. rewrite H.
  destruct (quantityKey details), k; simpl; rewrite ?num_or_zero; reflexivity.
Qed.

Lemma apply_quantity_unmapped (k : QuantityKey) :
  categoryDetails c = None ->
  quantity k (applyClassification prevData c) = quantity k prevData.
Proof.
  intro H. unfold applyClassification. rewrite H.
  destruct k; reflexivity.
Qed.

End ApplyClassification.

Lemma known_category_mapping (C : WasteCategory) (pts : Z) :
  pointsFor C = Some pts ->
  (categoryDetails C = None <-> In C unmapped_known_categories).
Proof.
  intro H. apply pointsFor_listed in H. unfold WASTE_POINTS in H. simpl in H.
  repeat (destruct H as [H|H];
          [injection H as <- _; vm_compute; split;
           [try discriminate; intros _; tauto
           |try reflexivity; intros K; repeat (destruct K as [K|K]; try discriminate K); contradiction]
          |]).
  contradiction.
Qed.

(** C1, as stated, fails: "plastic" has an entry in the points table, yet a
    classification as "plastic" raises no per-category counter at all (not
    even [totalPlastic]). *)
Lemma plastic_raises_no_counter :
  pointsFor "plastic" = Some 50
  /\ ~ (exists k : QuantityKey,
          quantity k (applyClassification defaultUserProfile "plastic")
          = quantity k defaultUserProfile + 1).
Proof.
  split; [reflexivity|].
  intros [k H]. destruct k; discriminate H.
Qed.

(** C1 (amended).  For every profile [P] and every category [C] with an entry
    [pts] in the points table, the updated profile equals [P] except that the
    score grows by exactly [pts], [itemsClassified] by exactly 1 and
    [co2Managed] becomes [P.co2Managed + pts * 0.1] rounded to one decimal.
    When [C] has an entry in [verticalLogCategories], exactly the counter
    named by that entry grows by 1 and every other counter is unchanged; when
    it has none (plastic, organic, recyclable, compostable, non-recyclable),
    no per-category counter changes. *)
Theorem applyClassification_known_category
  (P : UserProfile) (C : WasteCategory) (pts : Z) :
  pointsFor C = Some pts ->
  let P' := applyClassification P C in
  score P' = score P + pts
  /\ itemsClassified P' = itemsClassified P + 1
  /\ co2Managed P' = toFixed1 (co2Managed P + inject_Z pts * (1 # 10))%Q
  /\ (id P' = id P /\ displayName P' = displayName P /\ email P' = email P
      /\ avatar P' = avatar P /\ challengesCompleted P' = challengesCompleted P
      /\ badges P' = badges P)
  /\ (categoryDetails C = None <-> In C unmapped_known_categories)
  /\ match categoryDetails C with
     | Some details =>
         quantity (quantityKey details) P' = quantity (quantityKey details) P + 1
         /\ forall k, k <> quantityKey details -> quantity k P' = quantity k P
     | None => forall k, quantity k P' = quantity k P
     end.
Proof.
  intros H P'. subst P'.
  rewrite apply_score, apply_itemsClassified, apply_co2Managed.
  rewrite (pointsEarned_known C pts H).
  repeat split; try apply apply_other_fields;
    try (apply (known_category_mapping C pts H)).
  destruct (categoryDetails C) as [details|] eqn:D.
  - split.
    + rewrite (apply_quantity_mapped P C details _ D).
      destruct (QuantityKey_eq_dec (quantityKey details) (quantityKey details));
        [reflexivity | contradiction].
    + intros k Hk. rewrite (apply_quantity_mapped P C details k D).
      destruct (QuantityKey_eq_dec k (quantityKey details)); [contradiction | reflexivity].
  - intro k. apply apply_quantity_unmapped. exact D.
Qed.

Lemma applyClassification_known_category_witness :
  pointsFor "cardboard" = Some 80
  /\ score (applyClassification defaultUserProfile "cardboard") = 80
  /\ totalCardboard (applyClassification defaultUserProfile "cardboard") = 1.
Proof.
  split; [reflexivity|].
  pose proof (applyClassification_known_category defaultUserProfile "cardboard" 80
                (eq_refl : pointsFor "cardboard" = Some 80)) as W.
  cbv zeta in W.
  destruct W as (Hs & _ & _ & _ & _ & Hq).
  split; [exact Hs|].
  change (categoryDetails "cardboard")
    with (Some (mkLogCategory "cardboard" "Cardboard" 80 KTotalCardboard)) in Hq.
  exact (proj1 Hq).
Defined.

(** For a category with no entry in [verticalLogCategories] that is not an
    inherited name: without an entry in the points table either, the score
    grows by the value of "other" (10); [itemsClassified] grows by 1; no
    per-category counter changes. *)
Lemma unmapped_category_earns_fallback (P : UserProfile) (C : WasteCategory) :
  categoryDetails C = None ->
  inherited_name C = false ->
  updatedUserData P C = UpdatedProfile (applyClassification P C)
  /\ (pointsFor C = None ->
      score (applyClassification P C) = score P + WASTE_POINTS_at "other")
  /\ WASTE_POINTS_at "other" = 10
  /\ itemsClassified (applyClassification P C) = itemsClassified P + 1
  /\ forall k, quantity k (applyClassification P C) = quantity k P.
Proof.
  intros H I. refine (conj _ (conj _ (conj _ (conj _ _)))).
  - apply updatedUserData_profile. split; [exact I | reflexivity].
  - intro N. rewrite apply_score, (pointsEarned_unknown C N). reflexivity.
  - reflexivity.
  - apply apply_itemsClassified.
  - intro k. apply apply_quantity_unmapped. exact H.
Qed.

(** C3.  The category "constructor" has no entry in [verticalLogCategories]
    and no entry in the points table, yet indexing the table by it yields the
    member inherited from [Object.prototype]: the fallback to "other" is not
    taken, the award is not a number, and what the updater returns is no
    profile (its score is a string), whatever the profile before.  The same
    holds for every inherited name. *)
Theorem inherited_name_takes_no_fallback :
  categoryDetails "constructor" = None
  /\ pointsFor "constructor" = None
  /\ WASTE_POINTS_index "constructor" = InheritedMember
  /\ award "constructor" = NotANumber
  /\ (forall P, updatedUserData P "constructor" = NotAProfile)
  /\ Forall (fun c => categoryDetails c = None /\ pointsFor c = None
                      /\ forall P, updatedUserData P c = NotAProfile)
       Object_prototype_names.
Proof.
  refine (conj _ (conj _ (conj _ (conj _ (conj _ _))))); try reflexivity.
  apply Forall_forall. intros c H. apply inherited_name_listed in H.
  destruct (inherited_name_has_no_entry c H) as [Hp Hc].
  split; [exact Hc|]. split; [exact Hp|]. intro P.
  unfold updatedUserData. rewrite (award_of_inherited_name c H). reflexivity.
Qed.

(** ** The classification handler *)

Lemma usable_category_none (r : option ClassifyWasteOutput) :
  usable_category r = None
  <-> (r = None
       \/ exists o, r = Some o /\ (out_category o = None \/ out_category o = Some "")).
Proof.
  unfold usable_category. split.
  - destruct r as [o|]; [|now left].
    destruct (out_category o) as [[|ch rest]|] eqn:E; simpl.
    + intros _. right. exists o. auto.
    + discriminate.
    + intros _. right. exists o. auto.
  - intros [->|[o [-> [E|E]]]]; [reflexivity | |]; rewrite E; reflexivity.
Qed.

Lemma usable_category_some (c : WasteCategory) (conf : Q) :
  c <> "" -> usable_category (Some (mkOutput (Some c) conf)) = Some (c, conf).
Proof. intro H. destruct c; [contradiction | reflexivity]. Qed.

Lemma handleClassify_logged_out st image hint ai now1 now2 :
  isLoggedIn st = false ->
  handleClassify st image hint ai now1 now2 = (st, AuthRequired).
Proof. intro H. unfold handleClassify. rewrite H. reflexivity. Qed.

Lemma handleClassify_rejected st image hint message now1 now2 :
  isLoggedIn st = true ->
  exists st' msg,
    handleClassify st image hint (Rejected message) now1 now2
    = (st', ClassificationFailed msg)
    /\ untouched st st'.
Proof.
  intro H. unfold handleClassify. rewrite H. simpl.
  eexists. eexists. split; [reflexivity|]. repeat split.
Qed.

Lemma handleClassify_unusable st image hint r now1 now2 :
  isLoggedIn st = true -> usable_category r = None ->
  exists st',
    handleClassify st image hint (Resolved r) now1 now2 = (st', InvalidResult)
    /\ untouched st st'.
Proof.
  intros H U. unfold handleClassify. rewrite H, U. simpl.
  eexists. split; [reflexivity|]. repeat split.
Qed.

Lemma handleClassify_usable st image hint r c conf now1 now2 :
  isLoggedIn st = true -> usable_category r = Some (c, conf) ->
  exists st',
    handleClassify st image hint (Resolved r) now1 now2 = (st', Classified (c, conf))
    /\ userData st' = applyClassification (userData st) c
    /\ ls_userData (storage st') = Some (userData st')
    /\ history st' = slice0 50 (record_of image c conf now1 now2 :: history st)
    /\ recentClassifications st' = slice0 MAX_HISTORY_DISPLAY_ITEMS (history st')
    /\ isLoggedIn st' = true.
Proof.
  intros H U. unfold handleClassify. rewrite H, U. simpl.
  eexists. split; [reflexivity|]. simpl. repeat split.
Qed.

(** The four ways a call can end, each with what it does to the state. *)
Lemma handleClassify_cases st image hint ai now1 now2 :
  let res := handleClassify st image hint ai now1 now2 in
  (isLoggedIn st = false /\ res = (st, AuthRequired))
  \/ (isLoggedIn st = true /\ (exists m, ai = Rejected m)
      /\ (exists msg, snd res = ClassificationFailed msg) /\ untouched st (fst res))
  \/ (isLoggedIn st = true /\ (exists r, ai = Resolved r /\ usable_category r = None)
      /\ snd res = InvalidResult /\ untouched st (fst res))
  \/ (isLoggedIn st = true
      /\ exists r c conf, ai = Resolved r /\ usable_category r = Some (c, conf)
         /\ snd res = Classified (c, conf)
         /\ userData (fst res) = applyClassification (userData st) c
         /\ history (fst res) = slice0 50 (record_of image c conf now1 now2 :: history st)
         /\ recentClassifications (fst res)
            = slice0 MAX_HISTORY_DISPLAY_ITEMS (history (fst res))
         /\ isLoggedIn (fst res) = true).
Proof.
  intro res. subst res.
  destruct (isLoggedIn st) eqn:L.
  - right. destruct ai as [m|r].
    + left. destruct (handleClassify_rejected st image hint m now1 now2 L)
        as (st' & msg & E & U).
      rewrite E. simpl. repeat split; eauto; apply U.
    + destruct (usable_category r) as [[c conf]|] eqn:U.
      * right. right.
        destruct (handleClassify_usable st image hint r c conf now1 now2 L U)
          as (st' & E & Hu & _ & Hh & Hr & Hl).
        rewrite E. simpl. split; [reflexivity|].
        exists r, c, conf. repeat split; assumption.
      * right. left.
        destruct (handleClassify_unusable st image hint r now1 now2 L U)
          as (st' & E & Un).
        rewrite E. simpl. repeat split; eauto; apply Un.
  - left. split; [reflexivity|]. apply handleClassify_logged_out. exact L.
Qed.

(** C2, as stated, fails: "battery" is outside the enumeration, yet a
    logged-in classification that resolves to it succeeds and raises the
    score by the fallback 10 points. *)
Lemma battery_is_scored :
  let res := handleClassify signed_in_page "data:image/png;base64,AAAA" None
               (Resolved (Some (mkOutput (Some "battery") (9 # 10)))) 1000 1000 in
  pointsFor "battery" = None
  /\ snd res <> InvalidResult
  /\ snd res = Classified ("battery", (9 # 10)%Q)
  /\ score (userData signed_in_page) = 0
  /\ score (userData (fst res)) = 10.
Proof.
  cbv zeta. split; [reflexivity|]. split; [discriminate|].
  split; [reflexivity|]. split; reflexivity.
Qed.

(** C2 (amended).  A logged-in classification ends in InvalidResult exactly
    when the classifier resolves with no result or with a missing or empty
    category.  A non-empty category outside the points table that is not an
    inherited name, such as "battery", is accepted: the call succeeds with
    that category and the score grows by the fallback 10 points. *)
Theorem invalid_result_needs_missing_category st image hint ai now1 now2 :
  isLoggedIn st = true ->
  let res := handleClassify st image hint ai now1 now2 in
  (snd res = InvalidResult
   <-> exists r, ai = Resolved r
                 /\ (r = None
                     \/ exists o, r = Some o
                                  /\ (out_category o = None \/ out_category o = Some "")))
  /\ (snd res = InvalidResult -> untouched st (fst res))
  /\ (forall (c : WasteCategory) (conf : Q),
        c <> "" -> pointsFor c = None -> inherited_name c = false ->
        ai = Resolved (Some (mkOutput (Some c) conf)) ->
        snd res = Classified (c, conf)
        /\ updatedUserData (userData st) c = UpdatedProfile (userData (fst res))
        /\ score (userData (fst res)) = score (userData st) + 10).
Proof.
  intros L res.
  pose proof (handleClassify_cases st image hint ai now1 now2) as C.
  cbv zeta in C. fold res in C.
  destruct C as [[L' _]|[C|[C|C]]]; [congruence | | |].
  - destruct C as (_ & [m ->] & [msg E] & U).
    refine (conj (conj _ _) (conj _ _)).
    + rewrite E. discriminate.
    + intros (r & Hr & _). discriminate Hr.
    + rewrite E. discriminate.
    + discriminate.
  - destruct C as (_ & (r & -> & Un) & E & U).
    refine (conj (conj _ _) (conj _ _)).
    + intros _. exists r. split; [reflexivity|]. apply usable_category_none. exact Un.
    + intros _. exact E.
    + intros _. exact U.
    + intros c conf Hc _ _ Hai. injection Hai as ->.
      rewrite (usable_category_some c conf Hc) in Un. discriminate Un.
  - destruct C as (_ & r & c & conf & -> & Us & E & Hu & _).
    refine (conj (conj _ _) (conj _ _)).
    + rewrite E. discriminate.
    + intros (r' & Hr & Hn). injection Hr as <-.
      apply usable_category_none in Hn. congruence.
    + rewrite E. discriminate.
    + intros c' conf' Hc Hp Hi Hai. injection Hai as ->.
      rewrite (usable_category_some c' conf' Hc) in Us. injection Us as <- <-.
      split; [exact E|]. split.
      * apply updatedUserData_profile. split; [exact Hi | exact Hu].
      * rewrite Hu, apply_score, (pointsEarned_unknown c' Hp). reflexivity.
Qed.

Lemma invalid_result_needs_missing_category_witness :
  isLoggedIn signed_in_page = true
  /\ snd (handleClassify signed_in_page "data:image/png;base64,AAAA" None
            (Resolved (Some (mkOutput (Some "battery") (9 # 10)))) 1000 1000)
     = Classified ("battery", (9 # 10)%Q)
  /\ snd (handleClassify signed_in_page "data:image/png;base64,AAAA" None
            (Resolved (Some (mkOutput None (9 # 10)))) 1000 1000)
     = InvalidResult.
Proof.
  split; [reflexivity|]. split.
  - apply (invalid_result_needs_missing_category signed_in_page
             "data:image/png;base64,AAAA" None
             (Resolved (Some (mkOutput (Some "battery") (9 # 10)))) 1000 1000 eq_refl);
      [discriminate | reflexivity | reflexivity | reflexivity].
  - apply (proj1 (invalid_result_needs_missing_category signed_in_page
             "data:image/png;base64,AAAA" None
             (Resolved (Some (mkOutput None (9 # 10)))) 1000 1000 eq_refl)).
    eexists. split; [reflexivity|]. right. eexists. split; [reflexivity|].
    left. reflexivity.
Defined.

(** C5.  Every failing attempt leaves the profile, everything persisted (the
    stored profile and the history) and the displayed history as they were:
    an unauthenticated call ends in AuthRequired, a classifier answer without
    a usable category in InvalidResult, a rejected classifier call in
    ClassificationFailed, and a call that does not end in success changes
    none of them. *)
Theorem failed_classification_mutates_nothing st image hint ai now1 now2 :
  let res := handleClassify st image hint ai now1 now2 in
  (isLoggedIn st = false -> snd res = AuthRequired /\ fst res = st)
  /\ (isLoggedIn st = true -> forall r, ai = Resolved r -> usable_category r = None ->
      snd res = InvalidResult /\ untouched st (fst res))
  /\ (isLoggedIn st = true -> forall m, ai = Rejected m ->
      (exists msg, snd res = ClassificationFailed msg) /\ untouched st (fst res))
  /\ ((forall out, snd res <> Classified out) ->
      untouched st (fst res) /\ history (fst res) = history st).
Proof.
  intro res.
  pose proof (handleClassify_cases st image hint ai now1 now2) as C.
  cbv zeta in C. fold res in C.
  refine (conj _ (conj _ (conj _ _))).
  - intro L. destruct C as [[_ E]|[C|[C|C]]];
      try (destruct C as [L' _]; congruence).
    rewrite E. split; reflexivity.
  - intros L r Hai Un. destruct C as [[L' _]|[C|[C|C]]]; [congruence | | |].
    + destruct C as (_ & [m Hm] & _). congruence.
    + destruct C as (_ & _ & E & U). split; assumption.
    + destruct C as (_ & r' & c & conf & Hr & Us & _).
      rewrite Hai in Hr. injection Hr as <-. congruence.
  - intros L m Hai. destruct C as [[L' _]|[C|[C|C]]]; [congruence | | |].
    + destruct C as (_ & _ & E & U). split; assumption.
    + destruct C as (_ & (r & Hr & _) & _). congruence.
    + destruct C as (_ & r' & c & conf & Hr & _). congruence.
  - intro F.
    assert (U : untouched st (fst res)).
    { destruct C as [[_ E]|[C|[C|C]]].
      - rewrite E. repeat split.
      - apply C.
      - apply C.
      - destruct C as (_ & r & c & conf & _ & _ & E & _).
        exfalso. exact (F _ E). }
    split; [exact U|]. unfold history. destruct U as (_ & -> & _). reflexivity.
Qed.

Lemma failed_classification_mutates_nothing_witness :
  isLoggedIn guest_page = false
  /\ isLoggedIn signed_in_page = true
  /\ fst (handleClassify guest_page "data:image/png;base64,AAAA" (Some "glass")
            (Resolved (Some (mkOutput (Some "glass") (9 # 10)))) 1000 1000)
     = guest_page
  /\ untouched signed_in_page
       (fst (handleClassify signed_in_page "data:image/png;base64,AAAA" (Some "glass")
               (Resolved None) 1000 1000))
  /\ untouched signed_in_page
       (fst (handleClassify signed_in_page "data:image/png;base64,AAAA" (Some "glass")
               (Rejected (Some "Failed to fetch")) 1000 1000)).
Proof.
  split; [reflexivity|]. split; [reflexivity|]. split; [|split].
  - apply (failed_classification_mutates_nothing guest_page
             "data:image/png;base64,AAAA" (Some "glass")
             (Resolved (Some (mkOutput (Some "glass") (9 # 10)))) 1000 1000).
    reflexivity.
  - apply (failed_classification_mutates_nothing signed_in_page
             "data:image/png;base64,AAAA" (Some "glass") (Resolved None) 1000 1000).
    intros out. discriminate.
  - apply (failed_classification_mutates_nothing signed_in_page
             "data:image/png;base64,AAAA" (Some "glass")
             (Rejected (Some "Failed to fetch")) 1000 1000).
    intros out. discriminate.
Defined.



(** A successful classification whose category is not an inherited name
    raises the score by at least 10: every entry of the points table is at
    least 10, and a category without an entry earns the fallback 10. *)
Lemma numeric_award_adds_at_least_10 st image hint ai now1 now2 c conf :
  snd (handleClassify st image hint ai now1 now2) = Classified (c, conf) ->
  inherited_name c = false ->
  updatedUserData (userData st) c
  = UpdatedProfile (userData (fst (handleClassify st image hint ai now1 now2)))
  /\ score (userData st) + 10
     <= score (userData (fst (handleClassify st image hint ai now1 now2))).
Proof.
  intros S I.
  pose proof (handleClassify_cases st image hint ai now1 now2) as C.
  cbv zeta in C.
  destruct C as [[_ E]|[C|[C|C]]].
  - rewrite E in S. discriminate S.
  - destruct C as (_ & _ & [msg E] & _). rewrite E in S. discriminate S.
  - destruct C as (_ & _ & E & _). rewrite E in S. discriminate S.
  - destruct C as (_ & r & c' & conf' & _ & _ & E & Hu & _).
    rewrite E in S. injection S as -> ->. split.
    + apply updatedUserData_profile. split; [exact I | exact Hu].
    + rewrite Hu, apply_score. pose proof (pointsEarned_at_least_10 c). lia.
Qed.

(** C10.  A logged-in classification that resolves to "constructor" passes
    the category check and succeeds, yet its award is the member inherited
    from [Object.prototype], not a number: what the updater returns is no
    profile (its score is a string), so the score is not raised by 10 or
    more.  The same holds for every inherited name. *)
Theorem inherited_name_classification_succeeds :
  isLoggedIn signed_in_page = true
  /\ snd (handleClassify signed_in_page "data:image/png;base64,AAAA" None
            (Resolved (Some (mkOutput (Some "constructor") (9 # 10)))) 1000 1000)
     = Classified ("constructor", (9 # 10)%Q)
  /\ updatedUserData (userData signed_in_page) "constructor" = NotAProfile
  /\ Forall (fun c : WasteCategory =>
               snd (handleClassify signed_in_page "data:image/png;base64,AAAA" None
                      (Resolved (Some (mkOutput (Some c) (9 # 10)))) 1000 1000)
               = Classified (c, (9 # 10)%Q)
               /\ updatedUserData (userData signed_in_page) c = NotAProfile)
       Object_prototype_names.
Proof.
  refine (conj _ (conj _ (conj _ _))); try reflexivity.
  apply Forall_forall. intros c H. apply inherited_name_listed in H.
  assert (N : c <> "") by (intros ->; discriminate H).
  destruct (handleClassify_usable signed_in_page "data:image/png;base64,AAAA" None
              _ c (9 # 10)%Q 1000 1000 eq_refl
              (usable_category_some c (9 # 10)%Q N)) as (st' & E & _).
  rewrite E. split; [reflexivity|].
  unfold updatedUserData. rewrite (award_of_inherited_name c H). reflexivity.
Qed.

(** ** The bounded history *)











(** The 51st classification keeps the 50 most recent records: the record of
    time 1 is gone and the one of time 51 is in front. *)
Example fifty_first_classification :
  map timestamp (history (serve (serve_all signed_in_page fifty_requests) (glass_request 51)))
  = map Z.of_nat (rev (seq 2 50)).
Proof. vm_compute. reflexivity. Qed.

(** ** Levels *)

Lemma getCurrentLevel_cases (s : Z) :
  (s < 500 /\ getCurrentLevel s = Bronze)
  \/ (500 <= s < 1500 /\ getCurrentLevel s = Silver)
  \/ (1500 <= s < 3000 /\ getCurrentLevel s = Gold)
  \/ (3000 <= s /\ getCurrentLevel s = Diamond).
Proof.
  cbv [getCurrentLevel scan_levels LEVELS nth_error nth List.length].
  change (minScore Diamond) with 3000. change (minScore Gold) with 1500.
  change (minScore Silver) with 500. change (minScore Bronze) with 0.
  destruct (Z.geb_spec s 3000); [right; right; right; split; [lia | reflexivity]|].
  destruct (Z.geb_spec s 1500); [right; right; left; split; [lia | reflexivity]|].
  destruct (Z.geb_spec s 500); [right; left; split; [lia | reflexivity]|].
  left. split; [lia|]. destruct (s >=? 0); reflexivity.
Qed.

Lemma levels_listed (l : LevelInfo) :
  In l LEVELS -> l = Bronze \/ l = Silver \/ l = Gold \/ l = Diamond.
Proof.
  unfold LEVELS. simpl. intuition.
Qed.

Ltac level_of s :=
  let H := fresh "H" in
  let E := fresh "E" in
  destruct (getCurrentLevel_cases s) as [[H E]|[[H E]|[[H E]|[H E]]]];
  rewrite E in *.

(** C7.  [getCurrentLevel s] is a tier of the table; among the tiers whose
    [minScore] does not exceed [s] it is the highest, by threshold and by
    position; it is Bronze when [s] is negative; and it is monotone in the
    score. *)
Theorem getCurrentLevel_highest_and_monotone (s : Z) :
  In (getCurrentLevel s) LEVELS
  /\ (0 <= s -> minScore (getCurrentLevel s) <= s)
  /\ (forall l, In l LEVELS -> minScore l <= s ->
        minScore l <= minScore (getCurrentLevel s)
        /\ (tier l <= tier (getCurrentLevel s))%nat)
  /\ (s < 0 -> getCurrentLevel s = Bronze)
  /\ (forall b, s <= b ->
        (tier (getCurrentLevel s) <= tier (getCurrentLevel b))%nat
        /\ minScore (getCurrentLevel s) <= minScore (getCurrentLevel b)).
Proof.
  refine (conj _ (conj _ (conj _ (conj _ _)))).
  - level_of s; simpl; tauto.
  - intro P. level_of s; simpl; lia.
  - intros l Hl Hm.
    apply levels_listed in Hl.
    destruct Hl as [-> | [-> | [-> | ->]]]; simpl in Hm; level_of s;
      try lia; (split; [simpl; lia | vm_compute; lia]).
  - intro N. level_of s; try lia. reflexivity.
  - intros b Hb. level_of s; level_of b; try lia;
      (split; [vm_compute; lia | simpl; lia]).
Qed.

Lemma getCurrentLevel_highest_and_monotone_witness :
  getCurrentLevel (-5) = Bronze
  /\ minScore (getCurrentLevel 480) <= minScore (getCurrentLevel 510)
  /\ (tier (getCurrentLevel 480) <= tier (getCurrentLevel 510))%nat
  /\ minScore Silver <= minScore (getCurrentLevel 510).
Proof.
  pose proof (getCurrentLevel_highest_and_monotone (-5)) as W1.
  pose proof (getCurrentLevel_highest_and_monotone 480) as W2.
  pose proof (getCurrentLevel_highest_and_monotone 510) as W3.
  destruct W1 as (_ & _ & _ & N & _).
  destruct W2 as (_ & _ & _ & _ & M).
  destruct W3 as (_ & _ & H & _).
  split; [apply N; lia|].
  destruct (M 510 ltac:(lia)) as [Mt Mm].
  split; [exact Mm|]. split; [exact Mt|].
  apply (H Silver); [simpl; tauto | simpl; lia].
Defined.

(** ** Progress toward the next level *)

Lemma ratio_nonneg (e r : Z) :
  0 <= e -> 0 < r -> (0 <= inject_Z e / inject_Z r * 100)%Q.
Proof.
  intros He Hr.
  apply Qmult_le_0_compat; [|discriminate].
  apply Qle_shift_div_l.
  - change 0%Q with (inject_Z 0). rewrite <- Zlt_Qlt. exact Hr.
  - rewrite Qmult_0_l. change 0%Q with (inject_Z 0). rewrite <- Zle_Qle. exact He.
Qed.

Lemma scorePercentage_bounds (s : Z) (lvl : LevelInfo) :
  (0 <= scorePercentage s lvl <= 100)%Q.
Proof.
  unfold scorePercentage.
  destruct (targetForNext lvl) as [t|]; [|split; discriminate].
  destruct (t - minScore lvl >? 0) eqn:R.
  - apply Z.gtb_lt in R. split.
    + apply Q.min_glb; [|discriminate].
      apply ratio_nonneg; lia.
    + apply Q.le_min_r.
  - destruct (s >=? minScore lvl); split; discriminate.
Qed.

(** C8.  The progress percentage lies between 0 and 100 for every score and
    level, in particular for the level of the score itself; it is 100 when
    the target of the level is unbounded, which for the level of a score
    means Diamond (a score of 3000 or more); and when the range to the
    target is zero or negative it is 100 for every score that reaches the
    level's [minScore]. *)
Theorem scorePercentage_clamped (s : Z) (lvl : LevelInfo) :
  (0 <= scorePercentage s lvl <= 100)%Q
  /\ (targetForNext lvl = Infinity -> scorePercentage s lvl = 100%Q)
  /\ (forall t, targetForNext lvl = Finite t -> t - minScore lvl <= 0 ->
        minScore lvl <= s -> scorePercentage s lvl = 100%Q)
  /\ (0 <= scorePercentage s (getCurrentLevel s) <= 100)%Q
  /\ (targetForNext (getCurrentLevel s) = Infinity <-> getCurrentLevel s = Diamond)
  /\ (getCurrentLevel s = Diamond -> scorePercentage s (getCurrentLevel s) = 100%Q).
Proof.
  refine (conj _ (conj _ (conj _ (conj _ (conj _ _))))).
  - apply scorePercentage_bounds.
  - intro I. unfold scorePercentage. rewrite I. reflexivity.
  - intros t F R M. unfold scorePercentage. rewrite F.
    destruct (t - minScore lvl >? 0) eqn:G; [apply Z.gtb_lt in G; lia|].
    destruct (Z.geb_spec s (minScore lvl)); [reflexivity | lia].
  - apply scorePercentage_bounds.
  - level_of s; split; intro K; try reflexivity; discriminate K.
  - intros ->. reflexivity.
Qed.

Lemma scorePercentage_clamped_witness :
  scorePercentage 3200 Diamond = 100%Q
  /\ scorePercentage 700 (mkLevel "Flat" 500 (Finite 500)) = 100%Q
  /\ (0 <= scorePercentage 510 (getCurrentLevel 510) <= 100)%Q.
Proof.
  split; [|split].
  - apply (scorePercentage_clamped 3200 Diamond). reflexivity.
  - apply (scorePercentage_clamped 700 (mkLevel "Flat" 500 (Finite 500))) with (t := 500);
      [reflexivity | simpl; lia | simpl; lia].
  - apply (scorePercentage_clamped 510 Silver).
Defined.

(** The scenarios of the specification: from 0, "cardboard" gives 80 points,
    Bronze and 16 percent; from 480, "glass" gives 510, Silver and 1 percent. *)
Example scenario_cardboard :
  let p := applyClassification defaultUserProfile "cardboard" in
  score p = 80 /\ totalCardboard p = 1 /\ (co2Managed p == 8)%Q
  /\ itemsClassified p = 1 /\ getCurrentLevel (score p) = Bronze
  /\ (scorePercentage (score p) (getCurrentLevel (score p)) == 16)%Q.
Proof. cbv zeta. repeat split. Qed.

Example scenario_glass :
  getCurrentLevel 480 = Bronze
  /\ 480 + pointsEarned "glass" = 510
  /\ getCurrentLevel 510 = Silver
  /\ (scorePercentage 510 (getCurrentLevel 510) == 1)%Q.
Proof. repeat split. Qed.

(** ** Reconciliation with the login state *)

Lemma truthy_some (e : string) : e <> "" -> truthy (Some e) = true.
Proof. destruct e; [contradiction | reflexivity]. Qed.

Lemma hint_matches_eq (e stored : string) :
  e <> "" -> stored = e -> hint_matches (Some e) stored = true.
Proof.
  intros Ne ->. unfold hint_matches.
  rewrite (truthy_some e Ne), String.eqb_refl. reflexivity.
Qed.

Lemma hint_matches_neq (e stored : string) :
  stored <> e -> hint_matches (Some e) stored = false.
Proof.
  intro D. unfold hint_matches.
  destruct (String.eqb_spec stored e); [contradiction|].
  apply andb_false_r.
Qed.

Lemma hint_differs_neq (e stored : string) :
  e <> "" -> stored <> e -> hint_differs (Some e) stored = true.
Proof.
  intros Ne D. unfold hint_differs. rewrite (truthy_some e Ne).
  destruct (String.eqb_spec stored e); [contradiction | reflexivity].
Qed.

Lemma hint_matches_falsy (hint : option string) (stored : string) :
  truthy hint = false -> hint_matches hint stored = false.
Proof.
  intro F. unfold hint_matches. destruct hint; [rewrite F|]; reflexivity.
Qed.

Lemma hint_differs_falsy (hint : option string) (stored : string) :
  truthy hint = false -> hint_differs hint stored = false.
Proof.
  intro F. unfold hint_differs. destruct hint; [rewrite F|]; reflexivity.
Qed.

Lemma reinitialized_known stored userEmail userName :
  hint_matches userEmail (email stored) = true ->
  same_counters (reinitialized stored userEmail userName) stored.
Proof.
  intro K. unfold same_counters, reinitialized. simpl. rewrite K.
  repeat split.
Qed.

Lemma reinitialized_unknown stored userEmail userName :
  hint_matches userEmail (email stored) = false ->
  same_counters (reinitialized stored userEmail userName) defaultUserProfile.
Proof.
  intro K. unfold same_counters, reinitialized. simpl. rewrite K.
  repeat split.
Qed.

Lemma same_counters_refl (p : UserProfile) : same_counters p p.
Proof. repeat split. Qed.

(** C4, as stated, fails twice.  Logged out, a stored profile whose id is
    still "localUser" is returned with its progress, not replaced by the
    default guest profile.  Logged in without an email hint, a stored profile
    of a known user is kept with its counters although its email is not the
    login email. *)
Lemma reconcile_keeps_stored_profile :
  (id guest_with_progress = "localUser"
   /\ score guest_with_progress = 80
   /\ reconcileOnAuthChange false guest_with_progress None None <> defaultUserProfile)
  /\ (email known_user = "ann@example.org"
      /\ score known_user = 80
      /\ reconcileOnAuthChange true known_user None (Some "Ann") = known_user
      /\ score (reconcileOnAuthChange true known_user None (Some "Ann")) <> 0).
Proof.
  split.
  - split; [reflexivity|]. split; [reflexivity|].
    intro H. apply (f_equal score) in H. vm_compute in H. discriminate H.
  - split; [reflexivity|]. split; [reflexivity|]. split; [reflexivity|].
    vm_compute. discriminate.
Qed.

(** C4 (amended).  Logged out: the default guest profile is returned when the
    stored id is not "localUser"; a stored profile whose id is "localUser" is
    returned as it is.  Logged in with a non-empty login email: if the stored
    email equals it all counters are preserved; if it differs the profile is
    rebuilt from the new identity fields with all counters zero.  Logged in
    without a login email: the profile is rebuilt with zero counters when the
    stored id is "localUser" or a non-empty login name differs from the
    stored display name, and is otherwise kept as stored. *)
Theorem reconcileOnAuthChange_cases stored userEmail userName :
  (id stored <> "localUser" ->
   reconcileOnAuthChange false stored userEmail userName = defaultUserProfile)
  /\ (id stored = "localUser" ->
      reconcileOnAuthChange false stored userEmail userName = stored)
  /\ (forall e, userEmail = Some e -> e <> "" -> email stored = e ->
      same_counters (reconcileOnAuthChange true stored userEmail userName) stored)
  /\ (forall e, userEmail = Some e -> e <> "" -> email stored <> e ->
      let r := reconcileOnAuthChange true stored userEmail userName in
      same_counters r defaultUserProfile
      /\ id r = e /\ email r = e /\ displayName r = str_or userName (before_at e))
  /\ (truthy userEmail = false ->
      id stored = "localUser" \/ hint_differs userName (displayName stored) = true ->
      let r := reconcileOnAuthChange true stored userEmail userName in
      same_counters r defaultUserProfile
      /\ id r = "firebaseUser" /\ email r = "" /\ displayName r = str_or userName "User")
  /\ (truthy userEmail = false ->
      id stored <> "localUser" -> hint_differs userName (displayName stored) = false ->
      reconcileOnAuthChange true stored userEmail userName = stored).
Proof.
  unfold reconcileOnAuthChange.
  refine (conj _ (conj _ (conj _ (conj _ (conj _ _))))).
  - intro D. destruct (String.eqb_spec (id stored) "localUser"); [contradiction | reflexivity].
  - intro D. rewrite D. reflexivity.
  - intros e -> Ne Eq.
    destruct (needs_sync stored (Some e) userName).
    + apply reinitialized_known. apply hint_matches_eq; assumption.
    + apply same_counters_refl.
  - intros e -> Ne D.
    unfold needs_sync. rewrite (hint_differs_neq e (email stored) Ne D).
    rewrite orb_true_r. simpl "||".
    split; [apply reinitialized_unknown, hint_matches_neq; exact D|].
    unfold reinitialized. destruct e; [contradiction|]. repeat split.
  - intros F C.
    unfold needs_sync. rewrite (hint_differs_falsy userEmail _ F), orb_false_r.
    assert (S : ((id stored =? "localUser")%string
                 || hint_differs userName (displayName stored)) = true).
    { destruct C as [C|C]; [rewrite C; reflexivity | rewrite C; apply orb_true_r]. }
    rewrite S.
    split; [apply reinitialized_unknown, hint_matches_falsy; exact F|].
    unfold reinitialized. simpl. rewrite F.
    destruct userEmail as [[|ch rest]|]; try discriminate F; repeat split.
  - intros F D N.
    unfold needs_sync. rewrite (hint_differs_falsy userEmail _ F), N.
    destruct (String.eqb_spec (id stored) "localUser"); [contradiction | reflexivity].
Qed.

Lemma reconcileOnAuthChange_cases_witness :
  reconcileOnAuthChange false known_user None None = defaultUserProfile
  /\ same_counters
       (reconcileOnAuthChange true known_user (Some "ann@example.org") (Some "Annie"))
       known_user
  /\ same_counters
       (reconcileOnAuthChange true known_user (Some "bob@example.org") None)
       defaultUserProfile
  /\ same_counters (reconcileOnAuthChange true guest_with_progress None None)
       defaultUserProfile
  /\ reconcileOnAuthChange false guest_with_progress None None = guest_with_progress
  /\ reconcileOnAuthChange true known_user None (Some "Ann") = known_user.
Proof.
  refine (conj _ (conj _ (conj _ (conj _ (conj _ _))))).
  - apply (reconcileOnAuthChange_cases known_user None None). discriminate.
  - apply (reconcileOnAuthChange_cases known_user (Some "ann@example.org") (Some "Annie"))
      with (e := "ann@example.org"); [reflexivity | discriminate | reflexivity].
  - apply (reconcileOnAuthChange_cases known_user (Some "bob@example.org") None)
      with (e := "bob@example.org"); [reflexivity | discriminate | discriminate].
  - apply (reconcileOnAuthChange_cases guest_with_progress None None);
      [reflexivity | left; reflexivity].
  - apply (reconcileOnAuthChange_cases guest_with_progress None None). reflexivity.
  - apply (reconcileOnAuthChange_cases known_user None (Some "Ann"));
      [reflexivity | discriminate | reflexivity].
Defined.

(** * Further properties of the home page *)

(** ** Reconciliation is stable *)

Lemma hint_matches_own (hint : option string) :
  hint_matches hint (str_or hint "") = truthy hint.
Proof.
  destruct hint as [[|a e]|]; try reflexivity.
  unfold hint_matches, str_or. rewrite String.eqb_refl. apply andb_true_r.
Qed.


Lemma reinitialized_counters stored userEmail userName :
  truthy userEmail = false ->
  same_counters (reinitialized stored userEmail userName) defaultUserProfile.
Proof.
  intro F. apply reinitialized_unknown. apply hint_matches_falsy. exact F.
Qed.

Lemma reinitialized_again stored userEmail userName :
  reinitialized (reinitialized stored userEmail userName) userEmail userName
  = reinitialized stored userEmail userName.
Proof.
  unfold reinitialized at 1. cbv zeta.
  change (email (reinitialized stored userEmail userName)) with (str_or userEmail "").
  rewrite hint_matches_own.
  destruct (truthy userEmail) eqn:T.
  - unfold reinitialized. rewrite T. reflexivity.
  - unfold reinitialized.
    rewrite (hint_matches_falsy userEmail (email stored) T), T.
    reflexivity.
Qed.

Lemma reconcile_again loggedIn stored userEmail userName :
  let r := reconcileOnAuthChange loggedIn stored userEmail userName in
  reconcileOnAuthChange loggedIn r userEmail userName = r.
Proof.
  cbv zeta. unfold reconcileOnAuthChange. destruct loggedIn.
  - destruct (needs_sync stored userEmail userName) eqn:N.
    + destruct (needs_sync (reinitialized stored userEmail userName) userEmail userName);
        [apply reinitialized_again | reflexivity].
    + rewrite N. reflexivity.
  - destruct (negb (id stored =? "localUser")%string) eqn:N.
    + reflexivity.
    + rewrite N. reflexivity.
Qed.




Lemma serve_failure st r :
  isLoggedIn st = false \/ resolved_category r = None ->
  untouched st (serve st r) /\ isLoggedIn (serve st r) = isLoggedIn st.
Proof.
  unfold serve, resolved_category, handleClassify, untouched.
  destruct (isLoggedIn st) eqn:L; simpl.
  - intros [F|F]; [discriminate|].
    destruct (req_ai r) as [m|x]; simpl; [auto|].
    destruct (usable_category x) as [[c conf]|]; [discriminate|].
    simpl. auto.
  - intros _. auto.
Qed.

Lemma serve_success_state st r c :
  isLoggedIn st = true -> resolved_category r = Some c ->
  exists conf,
    userData (serve st r) = applyClassification (userData st) c
    /\ storage (serve st r)
       = saveUserData (applyClassification (userData st) c)
           (saveHistory
              (slice0 50 (record_of (req_image r) c conf (req_now1 r) (req_now2 r)
                          :: history st))
              (storage st))
    /\ recentClassifications (serve st r)
       = slice0 MAX_HISTORY_DISPLAY_ITEMS (history (serve st r))
    /\ isLoggedIn (serve st r) = true.
Proof.
  unfold serve, resolved_category, handleClassify. intros L S. rewrite L. simpl.
  destruct (req_ai r) as [m|x]; [discriminate|].
  destruct (usable_category x) as [[c' conf]|]; [|discriminate].
  injection S as ->. exists conf. simpl. repeat split.
Qed.

Lemma resolved_category_succeeds r :
  succeeds r = true <-> exists c, resolved_category r = Some c.
Proof.
  unfold succeeds, resolved_category.
  destruct (req_ai r) as [m|x].
  - split; [discriminate | intros [c H]; discriminate].
  - destruct (usable_category x) as [[c conf]|].
    + split; [eauto | reflexivity].
    + split; [discriminate | intros [c H]; discriminate].
Qed.

Lemma checkLoginStatus_reconciled st : reconciled (checkLoginStatus st).
Proof.
  unfold reconciled, in_sync, checkLoginStatus, login_flag. simpl.
  repeat split. apply reconcile_again.
Qed.



Lemma saveUserData_same ls v :
  ls_userData ls = Some v -> saveUserData v ls = ls.
Proof. destruct ls. simpl. intros ->. reflexivity. Qed.

Lemma checkLoginStatus_on_reconciled st :
  reconciled st ->
  userData (checkLoginStatus st) = userData st
  /\ storage (checkLoginStatus st) = storage st
  /\ isLoggedIn (checkLoginStatus st) = isLoggedIn st.
Proof.
  intros (Hf & Hs & Hr). unfold in_sync in Hs.
  unfold checkLoginStatus. simpl. fold (login_flag (storage st)).
  rewrite <- Hf, Hs. simpl. rewrite Hr.
  repeat split. apply saveUserData_same. exact Hs.
Qed.

(** X1.  Reconciling twice is reconciling once: a second [checkLoginStatus]
    changes nothing, neither of the page state nor of what is stored. *)
Theorem checkLoginStatus_idempotent (st : HomePage) :
  checkLoginStatus (checkLoginStatus st) = checkLoginStatus st.
Proof.
  pose proof (checkLoginStatus_on_reconciled _ (checkLoginStatus_reconciled st))
    as (Hu & Hs & Hl).
  assert (Hr : recentClassifications (checkLoginStatus (checkLoginStatus st))
               = recentClassifications (checkLoginStatus st)) by reflexivity.
  assert (Hc : isClassifying (checkLoginStatus (checkLoginStatus st))
               = isClassifying (checkLoginStatus st)) by reflexivity.
  assert (He : classificationError (checkLoginStatus (checkLoginStatus st))
               = classificationError (checkLoginStatus st)) by reflexivity.
  assert (Hm : isUploadModalOpen (checkLoginStatus (checkLoginStatus st))
               = isUploadModalOpen (checkLoginStatus st)) by reflexivity.
  destruct (checkLoginStatus (checkLoginStatus st)), (checkLoginStatus st).
  simpl in *. congruence.
Qed.


(** X3.  After reconciliation the identity follows the login state: logged
    out, the profile id is "localUser"; logged in, the email is the login
    email and the display name the login name whenever these are non-empty,
    and the id is not "localUser" unless that is the login email itself. *)
Theorem reconciled_identity_follows_login stored userEmail userName :
  id (reconcileOnAuthChange false stored userEmail userName) = "localUser"
  /\ (forall e, userEmail = Some e -> e <> "" ->
      email (reconcileOnAuthChange true stored userEmail userName) = e)
  /\ (forall n, userName = Some n -> n <> "" ->
      displayName (reconcileOnAuthChange true stored userEmail userName) = n)
  /\ (userEmail <> Some "localUser" ->
      id (reconcileOnAuthChange true stored userEmail userName) <> "localUser").
Proof.
  unfold reconcileOnAuthChange.
  refine (conj _ (conj _ (conj _ _))).
  - destruct (String.eqb_spec (id stored) "localUser") as [E|E]; [exact E | reflexivity].
  - intros e -> Ne. unfold needs_sync.
    destruct ((id stored =? "localUser")%string
              || hint_differs (Some e) (email stored)
              || hint_differs userName (displayName stored)) eqn:N.
    + destruct e; [contradiction | reflexivity].
    + apply orb_false_elim in N. destruct N as [N _].
      apply orb_false_elim in N. destruct N as [_ N].
      unfold hint_differs in N. rewrite (truthy_some e Ne) in N.
      destruct (String.eqb_spec (email stored) e); [assumption | discriminate N].
  - intros n -> Nn. unfold needs_sync.
    destruct ((id stored =? "localUser")%string
              || hint_differs userEmail (email stored)
              || hint_differs (Some n) (displayName stored)) eqn:N.
    + destruct n; [contradiction | reflexivity].
    + apply orb_false_elim in N. destruct N as [_ N].
      unfold hint_differs in N. rewrite (truthy_some n Nn) in N.
      destruct (String.eqb_spec (displayName stored) n); [assumption | discriminate N].
  - intro D. unfold needs_sync.
    destruct (String.eqb_spec (id stored) "localUser") as [E|E].
    + simpl. destruct userEmail as [[|a e]|]; simpl; try discriminate.
      intro K. apply D. rewrite K. reflexivity.
    + destruct (_ || _); [|exact E].
      destruct userEmail as [[|a e]|]; simpl; try discriminate.
      intro K. apply D. rewrite K. reflexivity.
Qed.

Lemma reconciled_identity_follows_login_witness :
  email (reconcileOnAuthChange true guest_with_progress
           (Some "ann@example.org") (Some "Ann")) = "ann@example.org"
  /\ displayName (reconcileOnAuthChange true guest_with_progress
                    (Some "ann@example.org") (Some "Ann")) = "Ann"
  /\ id (reconcileOnAuthChange true guest_with_progress
           (Some "ann@example.org") (Some "Ann")) <> "localUser".
Proof.
  pose proof (reconciled_identity_follows_login guest_with_progress
                (Some "ann@example.org") (Some "Ann")) as (_ & We & Wn & Wi).
  split; [apply (We "ann@example.org"); [reflexivity | discriminate]|].
  split; [apply (Wn "Ann"); [reflexivity | discriminate]|].
  apply Wi. discriminate.
Defined.

(** ** The displayed history after reconciliation *)

Lemma insert_by_time_perm x l : Permutation (insert_by_time x l) (x :: l).
Proof.
  induction l as [|y rest IH]; simpl; [apply Permutation_refl|].
  destruct (timestamp y <=? timestamp x); [apply Permutation_refl|].
  apply Permutation_trans with (y :: x :: rest); [|apply perm_swap].
  apply perm_skip. exact IH.
Qed.

Lemma sort_by_time_perm l : Permutation (sort_by_time l) l.
Proof.
  induction l as [|x l IH]; simpl; [apply perm_nil|].
  apply Permutation_trans with (x :: sort_by_time l);
    [apply insert_by_time_perm | apply perm_skip; exact IH].
Qed.

Lemma insert_by_time_sorted x l : newest_first l -> newest_first (insert_by_time x l).
Proof.
  unfold newest_first. induction l as [|y rest IH]; intro S; simpl.
  - constructor; constructor.
  - apply StronglySorted_inv in S. destruct S as [S F].
    destruct (Z.leb_spec (timestamp y) (timestamp x)) as [L|L].
    + constructor; [constructor; assumption|].
      constructor; [exact L|].
      apply Forall_impl with (P := fun b => timestamp b <= timestamp y); [|exact F].
      intros b Hb. lia.
    + constructor; [apply IH; exact S|].
      apply (Permutation_Forall (Permutation_sym (insert_by_time_perm x rest))).
      constructor; [lia | exact F].
Qed.

Lemma sort_by_time_sorted l : newest_first (sort_by_time l).
Proof.
  induction l as [|x l IH]; simpl; [constructor|].
  apply insert_by_time_sorted. exact IH.
Qed.

Lemma newest_first_split l1 l2 :
  newest_first (l1 ++ l2) ->
  newest_first l1 /\ newest_first l2
  /\ forall x y, In x l1 -> In y l2 -> timestamp y <= timestamp x.
Proof.
  unfold newest_first. induction l1 as [|a l1 IH]; simpl; intro S.
  - split; [constructor|]. split; [exact S|]. intros x y [].
  - apply StronglySorted_inv in S. destruct S as [S F].
    destruct (IH S) as (S1 & S2 & C).
    split.
    + constructor; [exact S1|].
      rewrite Forall_forall in *. intros b Hb. apply F. apply in_or_app. now left.
    + split; [exact S2|].
      intros x y [<-|Hx] Hy.
      * rewrite Forall_forall in F. apply F. apply in_or_app. now right.
      * apply C; assumption.
Qed.

Lemma sort_by_time_of_sorted l : newest_first l -> sort_by_time l = l.
Proof.
  unfold newest_first. induction l as [|x l IH]; intro S; [reflexivity|].
  apply StronglySorted_inv in S. destruct S as [S F].
  simpl. rewrite (IH S).
  destruct l as [|y rest]; [reflexivity|].
  simpl. apply Forall_inv in F.
  destruct (Z.leb_spec (timestamp y) (timestamp x)); [reflexivity | lia].
Qed.

(** X4.  After [checkLoginStatus] the displayed records are the most recent
    ones of the stored history, newest first: there are five of them (all of
    them if fewer are stored), and no stored record left out is more recent
    than a displayed one. *)
Theorem checkLoginStatus_shows_most_recent (st : HomePage) :
  let shown := recentClassifications (checkLoginStatus st) in
  newest_first shown
  /\ List.length shown = Nat.min 5 (List.length (history st))
  /\ exists rest,
       Permutation (history st) (shown ++ rest)
       /\ forall x y, In x shown -> In y rest -> timestamp y <= timestamp x.
Proof.
  cbv zeta.
  change (recentClassifications (checkLoginStatus st))
    with (firstn 5 (sort_by_time (history st))).
  pose proof (sort_by_time_sorted (history st)) as S.
  rewrite <- (firstn_skipn 5 (sort_by_time (history st))) in S.
  apply newest_first_split in S. destruct S as (S1 & _ & C).
  split; [exact S1|]. split.
  - rewrite length_firstn.
    rewrite (Permutation_length (sort_by_time_perm (history st))). reflexivity.
  - exists (skipn 5 (sort_by_time (history st))). split; [|exact C].
    rewrite firstn_skipn. apply Permutation_sym, sort_by_time_perm.
Qed.

(** ** Totals over a run of classifications *)

Lemma pointsEarned_at_most_100 (c : WasteCategory) : pointsEarned c <= 100.
Proof.
  destruct (pointsFor c) as [v|] eqn:E.
  - rewrite (pointsEarned_known c v E). apply (pointsFor_range c v E).
  - rewrite (pointsEarned_unknown c E). lia.
Qed.

Lemma total_quantities_step (p : UserProfile) (c : WasteCategory) :
  total_quantities (applyClassification p c)
  = total_quantities p + (if is_mapped c then 1 else 0).
Proof.
  unfold is_mapped. cbv [total_quantities all_quantity_keys fold_right].
  destruct (categoryDetails c) as [d|] eqn:D.
  - rewrite !(apply_quantity_mapped p c d _ D).
    destruct (quantityKey d); simpl; lia.
  - rewrite !(apply_quantity_unmapped p c _ D). lia.
Qed.

Lemma serve_all_logged_out rs :
  forall st, isLoggedIn st = false -> serve_all st rs = st.
Proof.
  induction rs as [|r rs IH]; intros st L; [reflexivity|].
  assert (E : serve st r = st)
    by (unfold serve; rewrite (handleClassify_logged_out _ _ _ _ _ _ L); reflexivity).
  simpl. rewrite E. apply IH. exact L.
Qed.

Lemma serve_all_profile rs :
  forall st,
    isLoggedIn st = true ->
    userData (serve_all st rs)
    = fold_left applyClassification (resolved_categories rs) (userData st).
Proof.
  induction rs as [|r rs IH]; intros st L; [reflexivity|].
  simpl. destruct (resolved_category r) as [c|] eqn:S.
  - destruct (serve_success_state st r c L S) as (conf & Hu & _ & _ & Hl).
    rewrite (IH _ Hl), Hu. reflexivity.
  - destruct (serve_failure st r (or_intror S)) as ((Hu & _) & Hl).
    rewrite L in Hl. rewrite (IH _ Hl), Hu. reflexivity.
Qed.

Lemma fold_applyClassification_totals cs :
  forall p,
    let q := fold_left applyClassification cs p in
    itemsClassified q = itemsClassified p + Z.of_nat (List.length cs)
    /\ score q = score p + sum_list (map pointsEarned cs)
    /\ total_quantities q
       = total_quantities p + Z.of_nat (List.length (filter is_mapped cs)).
Proof.
  induction cs as [|c cs IH]; intro p; cbv zeta.
  - simpl. repeat split; lia.
  - simpl fold_left. destruct (IH (applyClassification p c)) as (Hi & Hs & Ht).
    rewrite Hi, Hs, Ht, apply_itemsClassified, apply_score, total_quantities_step.
    simpl filter. simpl map. simpl sum_list.
    destruct (is_mapped c); simpl List.length; repeat split; lia.
Qed.

Lemma updatedUserData_all_profile cs :
  forall p q,
    updatedUserData_all p cs = UpdatedProfile q
    <-> numeric_awards cs = true /\ q = fold_left applyClassification cs p.
Proof.
  induction cs as [|c cs IH]; intros p q.
  - simpl. split.
    + intro H. injection H as <-. split; reflexivity.
    + intros [_ ->]. reflexivity.
  - cbn [updatedUserData_all numeric_awards forallb fold_left].
    fold (numeric_awards cs).
    destruct (inherited_name c) eqn:I.
    + unfold updatedUserData. rewrite (award_of_inherited_name c I).
      split; [discriminate | intros [H _]; discriminate H].
    + unfold updatedUserData. rewrite (award_of_other_name c I).
      cbn [negb andb]. apply IH.
Qed.

(** X5.  Over a run of classification requests of a logged-in page in which
    no request resolves to a name inherited from [Object.prototype], the
    profile is the one the updater returns request after request:
    [itemsClassified] grows by the number of requests that succeed, the score
    by the sum of the points of the categories they resolve to, and the sum
    of the per-category counters by the number of those categories that have
    an entry in [verticalLogCategories].  On a page that is not logged in the
    run changes nothing at all. *)
Theorem run_totals (st : HomePage) (rs : list Request) :
  (isLoggedIn st = true ->
   numeric_awards (resolved_categories rs) = true ->
   let cs := resolved_categories rs in
   let p := userData st in
   let q := userData (serve_all st rs) in
   updatedUserData_all p cs = UpdatedProfile q
   /\ itemsClassified q = itemsClassified p + Z.of_nat (List.length cs)
   /\ score q = score p + sum_list (map pointsEarned cs)
   /\ total_quantities q
      = total_quantities p + Z.of_nat (List.length (filter is_mapped cs)))
  /\ (isLoggedIn st = false -> serve_all st rs = st).
Proof.
  split.
  - intros L N. cbv zeta. rewrite (serve_all_profile rs st L). split.
    + apply updatedUserData_all_profile. split; [exact N | reflexivity].
    + apply fold_applyClassification_totals.
  - apply serve_all_logged_out.
Qed.

Lemma run_totals_witness :
  itemsClassified (userData (serve_all signed_in_page fifty_requests)) = 50
  /\ score (userData (serve_all signed_in_page fifty_requests)) = 1500
  /\ serve_all guest_page fifty_requests = guest_page.
Proof.
  pose proof (run_totals signed_in_page fifty_requests) as [W _].
  pose proof (run_totals guest_page fifty_requests) as [_ G].
  specialize (W eq_refl eq_refl). cbv zeta in W. destruct W as (_ & Wi & Ws & _).
  split; [exact Wi|]. split; [exact Ws|]. apply G. reflexivity.
Defined.

(** ** The CO2 estimate *)

Lemma Qfloor_plus_half (k : Z) : Qfloor (inject_Z k + (1 # 2)) = k.
Proof.
  unfold Qfloor, Qplus, inject_Z. simpl.
  symmetry. apply Z.div_unique with (r := 1); lia.
Qed.

Lemma toFixed1_tenths (x : Q) (k : Z) : (x == Qmake k 10 -> toFixed1 x == Qmake k 10)%Q.
Proof.
  intro H. unfold toFixed1.
  assert (E : (x * 10 == inject_Z k)%Q).
  { rewrite H. unfold Qeq, Qmult, inject_Z. simpl. lia. }
  destruct (Qle_bool 0 x).
  - assert (F : (x * 10 + (1 # 2) == inject_Z k + (1 # 2))%Q) by (rewrite E; reflexivity).
    rewrite F, Qfloor_plus_half. reflexivity.
  - assert (F : ((- x) * 10 + (1 # 2) == inject_Z (- k) + (1 # 2))%Q).
    { rewrite inject_Z_opp, <- E. ring. }
    rewrite F, Qfloor_plus_half. rewrite Z.opp_involutive. reflexivity.
Qed.

Lemma applyClassification_co2 (p : UserProfile) (c : WasteCategory) :
  co2_matches_score p -> co2_matches_score (applyClassification p c).
Proof.
  unfold co2_matches_score. intro H.
  rewrite apply_co2Managed, apply_score.
  apply toFixed1_tenths. rewrite H.
  unfold Qeq, Qplus, Qmult, inject_Z. simpl. lia.
Qed.

Lemma fold_applyClassification_co2 cs :
  forall p, co2_matches_score p ->
            co2_matches_score (fold_left applyClassification cs p).
Proof.
  induction cs as [|c cs IH]; intros p H; [exact H|].
  simpl. apply IH. apply applyClassification_co2. exact H.
Qed.

Lemma reconcile_co2 loggedIn stored userEmail userName :
  co2_matches_score stored ->
  co2_matches_score (reconcileOnAuthChange loggedIn stored userEmail userName).
Proof.
  unfold reconcileOnAuthChange, co2_matches_score. intro H.
  destruct loggedIn.
  - destruct (needs_sync stored userEmail userName); [|exact H].
    unfold reinitialized. simpl.
    destruct (hint_matches userEmail (email stored)); [exact H | reflexivity].
  - destruct (negb (id stored =? "localUser")%string); [reflexivity | exact H].
Qed.

(** X6.  In exact arithmetic the CO2 estimate stays one tenth of the score:
    if it is so for the stored profile it is so after [checkLoginStatus], and
    if it is so for the profile in memory it is so after any run of
    classification requests none of which resolves to a name inherited from
    [Object.prototype]; the rounding to one decimal never loses anything. *)
Theorem co2_is_a_tenth_of_score (st : HomePage) (rs : list Request) :
  (co2_matches_score (getFromLocalStorage (ls_userData (storage st)) defaultUserProfile) ->
   co2_matches_score (userData (checkLoginStatus st)))
  /\ (co2_matches_score (userData st) ->
      numeric_awards (resolved_categories rs) = true ->
      co2_matches_score (userData (serve_all st rs))).
Proof.
  split.
  - intro H. unfold checkLoginStatus. simpl. apply reconcile_co2. exact H.
  - intros H _. destruct (isLoggedIn st) eqn:L.
    + rewrite (serve_all_profile rs st L). apply fold_applyClassification_co2. exact H.
    + rewrite (serve_all_logged_out rs st L). exact H.
Qed.

Lemma co2_is_a_tenth_of_score_witness :
  co2_matches_score (userData signed_in_page)
  /\ co2_matches_score (userData (serve_all signed_in_page fifty_requests)).
Proof.
  pose proof (co2_is_a_tenth_of_score
                (initial_page (mkStorage (Some "true") (Some "ann@example.org")
                                 (Some "Ann") None None)) []) as [W1 _].
  pose proof (co2_is_a_tenth_of_score signed_in_page fifty_requests) as [_ W2].
  assert (H : co2_matches_score (userData signed_in_page)).
  { apply W1. unfold co2_matches_score. simpl. reflexivity. }
  split; [exact H | apply W2; [exact H | reflexivity]].
Defined.

(** ** Levels along a classification *)

(** X7.  A classification whose award is a number never lowers the level and
    raises it by at most one tier: whenever the updater returns a profile,
    the level of its score is the level before or the next one. *)
Theorem classification_climbs_at_most_one_tier
  (p : UserProfile) (c : WasteCategory) (q : UserProfile) :
  updatedUserData p c = UpdatedProfile q ->
  let old_tier := tier (getCurrentLevel (score p)) in
  let new_tier := tier (getCurrentLevel (score q)) in
  (old_tier <= new_tier <= old_tier + 1)%nat.
Proof.
  intro U. apply updatedUserData_profile in U. destruct U as [_ ->].
  cbv zeta. rewrite apply_score.
  pose proof (pointsEarned_at_least_10 c) as Lo.
  pose proof (pointsEarned_at_most_100 c) as Hi.
  level_of (score p); level_of (score p + pointsEarned c); try lia;
    vm_compute; split; lia.
Qed.

Lemma classification_climbs_at_most_one_tier_witness :
  tier (getCurrentLevel (score (userData signed_in_page))) = 0%nat
  /\ (0 <= tier (getCurrentLevel
                   (score (applyClassification (userData signed_in_page) "ewaste")))
      <= 1)%nat.
Proof.
  split; [reflexivity|].
  apply (classification_climbs_at_most_one_tier
           (userData signed_in_page) "ewaste"
           (applyClassification (userData signed_in_page) "ewaste")).
  reflexivity.
Defined.

Lemma in_level_ratio (e r : Z) :
  0 <= e < r ->
  (inject_Z e / inject_Z r * 100 == inject_Z (100 * e) / inject_Z r)%Q
  /\ (inject_Z e / inject_Z r * 100 < 100)%Q.
Proof.
  intro H. destruct r as [|r|r]; try lia.
  unfold Qdiv, Qinv, Qmult, Qeq, Qlt, inject_Z. cbn [Qnum Qden].
  rewrite ?Pos2Z.inj_mul. split; nia.
Qed.

(** X8.  Below Diamond the progress bar is never clamped: for a score [s]
    with [0 <= s < 3000] and its own level, [s] lies between the level's
    [minScore] and its finite target, the percentage is
    [100 * (s - minScore) / (target - minScore)], it is strictly below 100,
    and it is 0 exactly when [s] is the [minScore] of the level. *)
Theorem progress_within_current_level (s : Z) :
  0 <= s < 3000 ->
  let lvl := getCurrentLevel s in
  exists target,
    targetForNext lvl = Finite target
    /\ minScore lvl <= s < target
    /\ (scorePercentage s lvl
        == inject_Z (100 * (s - minScore lvl)) / inject_Z (target - minScore lvl))%Q
    /\ (scorePercentage s lvl < 100)%Q
    /\ (scorePercentage s lvl == 0 <-> s = minScore lvl)%Q.
Proof.
  intros R lvl. subst lvl.
  assert (G : forall l target,
             targetForNext l = Finite target -> minScore l <= s < target ->
             (scorePercentage s l
              == inject_Z (100 * (s - minScore l)) / inject_Z (target - minScore l))%Q
             /\ (scorePercentage s l < 100)%Q
             /\ (scorePercentage s l == 0 <-> s = minScore l)%Q).
  { intros l target T B. unfold scorePercentage. rewrite T.
    destruct (Z.gtb_spec (target - minScore l) 0); [|lia].
    rewrite Z.max_r by lia.
    destruct (in_level_ratio (s - minScore l) (target - minScore l)) as [E L]; [lia|].
    assert (M : (Qmin (inject_Z (s - minScore l) / inject_Z (target - minScore l) * 100) 100
                 == inject_Z (s - minScore l) / inject_Z (target - minScore l) * 100)%Q)
      by (apply Q.min_l, Qlt_le_weak; exact L).
    rewrite M. split; [exact E|]. split; [exact L|].
    rewrite E.
    destruct (target - minScore l) as [|r|r] eqn:D; try lia.
    unfold Qdiv, Qinv, Qmult, Qeq, inject_Z. cbn [Qnum Qden].
    rewrite ?Pos2Z.inj_mul. split; intro K; nia. }
  level_of s; try lia.
  - exists 500. split; [reflexivity|]. split; [simpl; lia|].
    apply G; [reflexivity | simpl; lia].
  - exists 1500. split; [reflexivity|]. split; [simpl; lia|].
    apply G; [reflexivity | simpl; lia].
  - exists 3000. split; [reflexivity|]. split; [simpl; lia|].
    apply G; [reflexivity | simpl; lia].
Qed.

Lemma progress_within_current_level_witness :
  exists target,
    targetForNext (getCurrentLevel 510) = Finite target
    /\ (scorePercentage 510 (getCurrentLevel 510) < 100)%Q.
Proof.
  destruct (progress_within_current_level 510 ltac:(lia)) as (t & T & _ & _ & L & _).
  exists t. split; assumption.
Defined.

(** ** The stored history under a clock that moves on *)

Lemma newest_first_firstn n l : newest_first l -> newest_first (firstn n l).
Proof.
  intro S. rewrite <- (firstn_skipn n l) in S.
  apply newest_first_split in S. apply S.
Qed.

Lemma Forall_firstn_of {A : Type} (P : A -> Prop) n (l : list A) :
  Forall P l -> Forall P (firstn n l).
Proof.
  intro F. rewrite <- (firstn_skipn n l) in F.
  apply Forall_app in F. apply F.
Qed.

Lemma serve_history_failure st r :
  isLoggedIn st = false \/ resolved_category r = None ->
  history (serve st r) = history st.
Proof.
  intro H. destruct (serve_failure st r H) as ((_ & S & _) & _).
  unfold history. rewrite S. reflexivity.
Qed.

Lemma serve_all_newest_first rs :
  forall st latest,
    newest_first (history st) ->
    Forall (fun x => timestamp x <= latest) (history st) ->
    clock_moves_on latest rs ->
    newest_first (history (serve_all st rs)).
Proof.
  induction rs as [|r rs IH]; intros st latest S F C; [exact S|].
  simpl in C |- *.
  destruct (resolved_category r) as [c|] eqn:R.
  - destruct C as [Cl Cr].
    destruct (isLoggedIn st) eqn:L.
    + destruct (serve_success_state st r c L R) as (conf & _ & Hs & _).
      assert (Hh : history (serve st r)
                   = record_of (req_image r) c conf (req_now1 r) (req_now2 r)
                     :: firstn 49 (history st)).
      { unfold history at 1. rewrite Hs. reflexivity. }
      assert (F' : Forall (fun x => timestamp x <= req_now2 r) (firstn 49 (history st))).
      { apply Forall_firstn_of.
        apply Forall_impl with (P := fun x => timestamp x <= latest); [|exact F].
        intros x Hx. lia. }
      apply (IH _ (req_now2 r)); [| |exact Cr]; rewrite Hh.
      * constructor; [apply newest_first_firstn; exact S | exact F'].
      * constructor; [simpl; lia | exact F'].
    + apply (IH _ (req_now2 r)); [| |exact Cr];
        rewrite (serve_history_failure st r (or_introl L)); [exact S|].
      apply Forall_impl with (P := fun x => timestamp x <= latest); [|exact F].
      intros x Hx. lia.
  - apply (IH _ latest); [| |exact C];
      rewrite (serve_history_failure st r (or_intror R)); assumption.
Qed.

(** X9.  When the stored history is newest first and no classification is
    stamped earlier than the newest record before it, the stored history
    stays newest first over any run of requests, and the sort of a following
    [checkLoginStatus] changes nothing: it displays the first five stored
    records. *)
Theorem history_stays_newest_first (st : HomePage) (latest : Z) (rs : list Request) :
  newest_first (history st) ->
  Forall (fun x => timestamp x <= latest) (history st) ->
  clock_moves_on latest rs ->
  let final := serve_all st rs in
  newest_first (history final)
  /\ recentClassifications (checkLoginStatus final) = firstn 5 (history final).
Proof.
  intros S F C final.
  assert (N : newest_first (history final))
    by (apply (serve_all_newest_first rs st latest); assumption).
  split; [exact N|].
  change (recentClassifications (checkLoginStatus final))
    with (firstn 5 (sort_by_time (history final))).
  rewrite (sort_by_time_of_sorted _ N). reflexivity.
Qed.

Lemma history_stays_newest_first_witness :
  recentClassifications (checkLoginStatus (serve_all signed_in_page fifty_requests))
  = firstn 5 (history (serve_all signed_in_page fifty_requests)).
Proof.
  apply (history_stays_newest_first signed_in_page 0 fifty_requests).
  - constructor.
  - constructor.
  - vm_compute. repeat split; discriminate.
Defined.

(** * Properties of the detailed dashboard page *)

(** ** The simulated real-time series *)

Lemma slice_last_length {A : Type} (n : nat) (l : list A) :
  List.length (slice_last n l) = Nat.min n (List.length l).
Proof. unfold slice_last. rewrite length_skipn. lia. Qed.

Lemma slice_last_short {A : Type} (n : nat) (l : list A) :
  (List.length l <= n)%nat -> slice_last n l = l.
Proof.
  intro H. unfold slice_last.
  replace (List.length l - n)%nat with 0%nat by lia. reflexivity.
Qed.

Lemma slice_last_Forall {A : Type} (P : A -> Prop) (n : nat) (l : list A) :
  Forall P l -> Forall P (slice_last n l).
Proof.
  intro F. unfold slice_last.
  rewrite <- (firstn_skipn (List.length l - n) l) in F.
  apply Forall_app in F. apply F.
Qed.

Lemma random_volume_range (random : Q) (scale base : Z) :
  is_random random -> 0 < scale ->
  base <= random_volume random scale base <= base + scale - 1.
Proof.
  intros [Lo Hi] S. unfold random_volume.
  assert (P : (0 < inject_Z scale)%Q)
    by (change 0%Q with (inject_Z 0); rewrite <- Zlt_Qlt; exact S).
  assert (A : 0 <= Qfloor (random * inject_Z scale)).
  { change 0 with (Qfloor 0). apply Qfloor_resp_le.
    apply Qmult_le_0_compat; [exact Lo | apply Qlt_le_weak; exact P]. }
  assert (B : Qfloor (random * inject_Z scale) < scale).
  { rewrite Zlt_Qlt.
    apply Qle_lt_trans with (random * inject_Z scale)%Q; [apply Qfloor_le|].
    rewrite <- (Qmult_1_l (inject_Z scale)) at 2.
    apply Qmult_lt_compat_r; assumption. }
  lia.
Qed.

Section RealTimeSeriesFacts.

Variable format_HHmmss : Z -> string.

Lemma initialRealTimeData_eq (t0 : Z) (random : Z -> Q) :
  initialRealTimeData format_HHmmss t0 random
  = map (fun i =>
           {| rt_timestamp := format_HHmmss (addSeconds t0 (i * - 3 * (5 - i)));
              rt_volume := random_volume (random i) 20 5 |})
        [0; 1; 2; 3; 4].
Proof. reflexivity. Qed.

(** X10.  One tick of the simulation appends the new point at the end and
    keeps at most the last 20 points: below 20 nothing is dropped, at 20 the
    oldest (first) point is dropped; and the volume of the new point lies
    between 10 and 79 for every value that [Math.random()] can return. *)
Theorem realTimeTick_window
  (prevData : list RealTimeEWasteDataPoint) (now : Z) (random : Q) :
  let newPoint := mkRealTimePoint (format_HHmmss now) (random_volume random 70 10) in
  let next := realTimeTick format_HHmmss prevData now random in
  List.length next = Nat.min 20 (List.length prevData + 1)
  /\ ((List.length prevData < 20)%nat -> next = (prevData ++ [newPoint])%list)
  /\ (List.length prevData = 20%nat -> next = (tl prevData ++ [newPoint])%list)
  /\ (exists kept, next = (kept ++ [newPoint])%list)
  /\ (is_random random -> 10 <= rt_volume newPoint <= 79).
Proof.
  cbv zeta. unfold realTimeTick.
  refine (conj _ (conj _ (conj _ (conj _ _)))).
  - rewrite slice_last_length, length_app. simpl. reflexivity.
  - intro H. apply slice_last_short. rewrite length_app. simpl.
    unfold MAX_REAL_TIME_EWASTE_POINTS. lia.
  - intro H. unfold slice_last, MAX_REAL_TIME_EWASTE_POINTS.
    rewrite length_app, H. simpl List.length.
    destruct prevData as [|p rest]; [discriminate H|]. reflexivity.
  - unfold slice_last, MAX_REAL_TIME_EWASTE_POINTS.
    rewrite length_app. simpl List.length.
    rewrite skipn_app.
    replace (List.length prevData + 1 - 20
             - List.length prevData)%nat with 0%nat by lia.
    eexists. reflexivity.
  - intro R. simpl.
    pose proof (random_volume_range random 70 10 R ltac:(lia)). lia.
Qed.

Lemma realTimeTicks_cons data now r ticks :
  realTimeTicks format_HHmmss data ((now, r) :: ticks)
  = realTimeTicks format_HHmmss (realTimeTick format_HHmmss data now r) ticks.
Proof. reflexivity. Qed.

Lemma realTimeTicks_run (ticks : list (Z * Q)) :
  forall data,
    Forall (fun t => is_random (snd t)) ticks ->
    Forall (fun p => 5 <= rt_volume p <= 79) data ->
    (List.length data <= 20)%nat ->
    Forall (fun p => 5 <= rt_volume p <= 79) (realTimeTicks format_HHmmss data ticks)
    /\ List.length (realTimeTicks format_HHmmss data ticks)
       = Nat.min 20 (List.length data + List.length ticks).
Proof.
  induction ticks as [|[now r] ticks IH]; intros data R F L.
  - cbn [realTimeTicks fold_left List.length]. split; [exact F | lia].
  - apply Forall_cons_iff in R. destruct R as [Rr R]. simpl in Rr.
    rewrite realTimeTicks_cons.
    set (next := realTimeTick format_HHmmss data now r).
    assert (Ln : List.length next = Nat.min 20 (List.length data + 1)).
    { unfold next, realTimeTick. rewrite slice_last_length, length_app. reflexivity. }
    assert (Fn : Forall (fun p => 5 <= rt_volume p <= 79) next).
    { unfold next, realTimeTick. apply slice_last_Forall.
      apply Forall_app. split; [exact F|].
      constructor; [|constructor]. simpl.
      pose proof (random_volume_range r 70 10 Rr ltac:(lia)). lia. }
    assert (Bn : (List.length next <= 20)%nat) by (rewrite Ln; lia).
    destruct (IH next R Fn Bn) as [Fs Ls].
    split; [exact Fs|]. rewrite Ls, Ln. cbn [List.length]. lia.
Qed.

(** X11.  Started from its five initial points and driven by any number of
    ticks, the series holds [min 20 (5 + ticks)] points, and every volume in
    it lies between 5 and 79, whatever [Math.random()] returns. *)
Theorem realTime_series_bounded
  (initialTimestamp : Z) (random : Z -> Q) (ticks : list (Z * Q)) :
  (forall i, is_random (random i)) ->
  Forall (fun t => is_random (snd t)) ticks ->
  let series :=
    realTimeTicks format_HHmmss
      (initialRealTimeData format_HHmmss initialTimestamp random) ticks in
  List.length series = Nat.min 20 (5 + List.length ticks)
  /\ Forall (fun p => 5 <= rt_volume p <= 79) series.
Proof.
  intros R T series. subst series.
  assert (F : Forall (fun p => 5 <= rt_volume p <= 79)
                (initialRealTimeData format_HHmmss initialTimestamp random)).
  { rewrite initialRealTimeData_eq. simpl.
    repeat constructor; simpl;
      match goal with
      | |- context [random_volume (random ?i) 20 5] =>
          pose proof (random_volume_range (random i) 20 5 (R i) ltac:(lia)); lia
      end. }
  destruct (realTimeTicks_run ticks _ T F) as [Fs Ls].
  - rewrite initialRealTimeData_eq. simpl. lia.
  - split; [|exact Fs]. rewrite Ls, initialRealTimeData_eq. reflexivity.
Qed.

End RealTimeSeriesFacts.

Lemma realTimeTick_window_witness :
  10 <= random_volume (3 # 4) 70 10 <= 79
  /\ realTimeTick toString [] 1000 (3 # 4)
     = [mkRealTimePoint (toString 1000) 62].
Proof.
  pose proof (realTimeTick_window toString [] 1000 (3 # 4)) as (_ & W & _ & _ & V).
  split.
  - apply V. split; [discriminate | reflexivity].
  - apply W. simpl. lia.
Defined.

Lemma realTime_series_bounded_witness :
  List.length
    (realTimeTicks toString
       (initialRealTimeData toString 0 (fun _ => 1 # 2))
       [(3000, 3 # 4); (6000, 1 # 4)]) = 7%nat.
Proof.
  apply (realTime_series_bounded toString 0 (fun _ => (1 # 2)%Q) [(3000, (3 # 4)%Q); (6000, (1 # 4)%Q)]).
  - intro i. split; [discriminate | reflexivity].
  - repeat constructor; discriminate.
Defined.


(** ** The fill-level history of bin 1 *)

Lemma map_indexed_nth {A B : Type} (f : A -> Z -> B) (l : list A) :
  forall i k,
    nth_error (map_indexed f i l) k
    = option_map (fun x => f x (i + Z.of_nat k)) (nth_error l k).
Proof.
  induction l as [|x rest IH]; intros i k.
  - destruct k; reflexivity.
  - destruct k as [|k].
    + simpl. rewrite Z.add_0_r. reflexivity.
    + simpl nth_error. rewrite IH. destruct (nth_error rest k); [|reflexivity].
      simpl. f_equal. f_equal. lia.
Qed.

Lemma map_indexed_map {A B C : Type} (f : A -> Z -> B) (g : B -> C) (h : A -> C) (l : list A) :
  (forall x i, g (f x i) = h x) ->
  forall i, map g (map_indexed f i l) = map h l.
Proof.
  intros H. induction l as [|x rest IH]; intro i; [reflexivity|].
  simpl. rewrite H, IH. reflexivity.
Qed.

Lemma bin1ChartData_eq (rawHistory : list RawHistoryItem) :
  bin1ChartData (Some rawHistory)
  = map_indexed (fun item chartIndex => mkHistoryPoint chartIndex (reading item)) 0
      (filter positive_reading rawHistory).
Proof.
  unfold bin1ChartData. destruct rawHistory; reflexivity.
Qed.

(** X12.  The chart of bin 1 holds exactly the readings of the history whose
    [fill_level] is a number above zero, in their order, renumbered from 0
    without gaps: the point at position [k] has index [k] and a positive
    level.  With no usable history the chart is empty. *)
Theorem bin1ChartData_renumbers_positive_readings (rawHistory : list RawHistoryItem) :
  let chart := bin1ChartData (Some rawHistory) in
  (forall k p, nth_error chart k = Some p ->
               hp_index p = Z.of_nat k /\ (0 < hp_fill_level p)%Q)
  /\ map hp_fill_level chart = map reading (filter positive_reading rawHistory)
  /\ (List.length chart <= List.length rawHistory)%nat
  /\ bin1ChartData None = [].
Proof.
  cbv zeta. rewrite bin1ChartData_eq.
  refine (conj _ (conj _ (conj _ _))).
  - intros k p H. rewrite map_indexed_nth in H.
    destruct (nth_error (filter positive_reading rawHistory) k) as [item|] eqn:N;
      [|discriminate H].
    simpl in H. injection H as <-. simpl. split; [reflexivity|].
    apply nth_error_In in N. apply filter_In in N. destruct N as [_ P].
    destruct item as [[v|]|]; try discriminate P. simpl in P |- *.
    apply negb_true_iff in P. apply Qnot_le_lt. intro L.
    apply Qle_bool_iff in L. congruence.
  - apply map_indexed_map. reflexivity.
  - rewrite <- (length_map hp_fill_level).
    rewrite (map_indexed_map _ hp_fill_level reading) by reflexivity.
    rewrite length_map. apply filter_length_le.
  - reflexivity.
Qed.

Lemma bin1ChartData_renumbers_positive_readings_witness :
  bin1ChartData (Some [Some (Some (12 # 1)%Q); None; Some (Some 0%Q); Some None;
                       Some (Some (35 # 1))])
  = [mkHistoryPoint 0 (12 # 1); mkHistoryPoint 1 (35 # 1)]
  /\ hp_index (mkHistoryPoint 1 (35 # 1)) = 1.
Proof.
  split; [reflexivity|].
  pose proof (bin1ChartData_renumbers_positive_readings
                [Some (Some (12 # 1)%Q); None; Some (Some 0%Q); Some None;
                 Some (Some (35 # 1)%Q)]) as W.
  cbv zeta in W. destruct W as (W & _).
  apply (W 1%nat). reflexivity.
Defined.

(** ** Smart bins *)

Lemma quot_above_24 (d : Z) :
  (Z.quot d MILLISECONDS_IN_HOUR >? 24) = true <-> 25 * MILLISECONDS_IN_HOUR <= d.
Proof.
  unfold MILLISECONDS_IN_HOUR.
  pose proof (Z.quot_rem' d 3600000) as E.
  assert (R : 0 <= d -> 0 <= Z.rem d 3600000 < 3600000)
    by (intro P; apply Z.rem_bound_pos; lia).
  assert (N : d < 0 -> Z.opp 3600000 < Z.rem d 3600000 <= 0)
    by (intro P; apply Z.rem_bound_pos_neg; lia).
  destruct (Z.gtb_spec (Z.quot d 3600000) 24) as [G|G]; split; intro H.
  - destruct (Z.le_gt_cases 0 d) as [P|P]; [specialize (R P) | specialize (N P)]; lia.
  - reflexivity.
  - discriminate H.
  - exfalso. specialize (R ltac:(lia)). lia.
Qed.

(** X13.  A bin is shown as offline exactly when it carries a non-zero
    [last_updated] that lies at least 25 full hours back: the hours are
    truncated before they are compared with 24, so after 24 hours and 59
    minutes of silence the bin still shows its fill status.  A bin without
    [last_updated], or stamped in the future, is never offline. *)
Theorem offline_after_25_hours (now : Z) (bin : BinData) :
  (isOffline now bin = true
   <-> exists t, bin_last_updated bin = Some t /\ t <> 0
                 /\ 25 * MILLISECONDS_IN_HOUR <= now - t)
  /\ (getBinStatusText now bin = "Offline" <-> isOffline now bin = true).
Proof.
  split.
  - unfold isOffline, differenceInHours.
    destruct (bin_last_updated bin) as [t|].
    + rewrite andb_true_iff, negb_true_iff, Z.eqb_neq, quot_above_24. split.
      * intros [A B]. exists t. auto.
      * intros (t' & E & A & B). injection E as <-. auto.
    + split; [discriminate | intros (t & E & _); discriminate E].
  - unfold getBinStatusText. destruct (isOffline now bin).
    + split; reflexivity.
    + split; [|discriminate].
      destruct (bin_notify bin); [discriminate|].
      destruct (Qle_bool 90 (bin_fill_level bin)); [discriminate|].
      destruct (Qle_bool 70 (bin_fill_level bin)); [discriminate|].
      destruct (Qle_bool 20 (bin_fill_level bin)); discriminate.
Qed.

Lemma offline_after_25_hours_witness :
  isOffline (90000000 + 5) (mkBin "bin7" (95 # 1) false (Some 5) None) = true
  /\ isOffline (89999999 + 5) (mkBin "bin7" (95 # 1) false (Some 5) None) = false.
Proof.
  split.
  - apply (proj2 (proj1 (offline_after_25_hours (90000000 + 5)
                             (mkBin "bin7" (95 # 1) false (Some 5) None)))).
    exists 5. repeat split; [discriminate | vm_compute; discriminate].
  - reflexivity.
Defined.

Lemma needs_emptying_split (now : Z) (bin : BinData) :
  needs_emptying bin
  = says_to_empty now bin || (isOffline now bin && needs_emptying bin)
  /\ says_to_empty now bin && (isOffline now bin && needs_emptying bin) = false.
Proof.
  unfold says_to_empty, getBinStatusText, needs_emptying.
  destruct (isOffline now bin); [split; reflexivity|].
  destruct (bin_notify bin); [split; reflexivity|].
  destruct (Qle_bool 90 (bin_fill_level bin)); [split; reflexivity|].
  destruct (Qle_bool 70 (bin_fill_level bin)); [split; reflexivity|].
  destruct (Qle_bool 20 (bin_fill_level bin)); split; reflexivity.
Qed.

(** X14.  The count of full bins also counts offline bins: it is the number
    of bins whose status reads "Notify" or "Full" plus the number of offline
    bins that notify or are at 90 percent or more.  It never exceeds the
    number of bins, and neither does the count of low batteries. *)
Theorem fullSmartBins_counts_offline_bins (now : Z) (smartBinsData : list BinData) :
  fullSmartBins smartBinsData
  = (List.length (filter (says_to_empty now) smartBinsData)
     + List.length (filter (fun bin => isOffline now bin && needs_emptying bin)
                      smartBinsData))%nat
  /\ (fullSmartBins smartBinsData <= totalSmartBins smartBinsData)%nat
  /\ (lowBatterySmartBins smartBinsData <= totalSmartBins smartBinsData)%nat.
Proof.
  unfold fullSmartBins, lowBatterySmartBins, totalSmartBins.
  split; [|split; apply filter_length_le].
  induction smartBinsData as [|bin rest IH]; [reflexivity|].
  simpl filter.
  destruct (needs_emptying_split now bin) as [E X].
  destruct (says_to_empty now bin), (isOffline now bin && needs_emptying bin);
    simpl in E, X; try discriminate X; rewrite E; simpl List.length; lia.
Qed.

(** ** The category distribution *)

Lemma add_to_existing_names type quantity acc :
  map slice_name (add_to_existing type quantity acc) = map slice_name acc.
Proof.
  induction acc as [|item rest IH]; [reflexivity|].
  simpl. destruct (slice_name item =? type)%string; simpl; [reflexivity|].
  rewrite IH. reflexivity.
Qed.

Lemma find_slice_none type acc :
  find (fun item => (slice_name item =? type)%string) acc = None
  <-> ~ In type (map slice_name acc).
Proof.
  induction acc as [|item rest IH]; simpl; [tauto|].
  destruct (String.eqb_spec (slice_name item) type) as [E|E].
  - split; [discriminate | intro H; exfalso; apply H; now left].
  - rewrite IH. tauto.
Qed.

Lemma distribution_step_names acc entry :
  map slice_name (distribution_step acc entry)
  = if existsb (String.eqb (we_type entry)) (map slice_name acc)
    then map slice_name acc
    else (map slice_name acc ++ [we_type entry])%list.
Proof.
  unfold distribution_step.
  destruct (find (fun item => (slice_name item =? we_type entry)%string) acc) eqn:F.
  - rewrite add_to_existing_names.
    destruct (existsb (String.eqb (we_type entry)) (map slice_name acc)) eqn:X;
      [reflexivity|].
    exfalso. assert (N : find (fun item => (slice_name item =? we_type entry)%string) acc
                         = None).
    { apply find_slice_none. intro I.
      assert (Y : existsb (String.eqb (we_type entry)) (map slice_name acc) = true)
        by (apply existsb_exists; exists (we_type entry); split;
            [exact I | apply String.eqb_refl]).
      congruence. }
    congruence.
  - apply find_slice_none in F.
    destruct (existsb (String.eqb (we_type entry)) (map slice_name acc)) eqn:X.
    + exfalso. apply F. apply existsb_exists in X. destruct X as (n & I & E).
      apply String.eqb_eq in E. subst n. exact I.
    + rewrite map_app. reflexivity.
Qed.

Lemma distribution_step_NoDup acc entry :
  NoDup (map slice_name acc) -> NoDup (map slice_name (distribution_step acc entry)).
Proof.
  intro N. rewrite distribution_step_names.
  destruct (existsb (String.eqb (we_type entry)) (map slice_name acc)) eqn:X; [exact N|].
  apply NoDup_app; [exact N | constructor; [intros [] | constructor] |].
  intros n I [<- | []].
  assert (Y : existsb (String.eqb (we_type entry)) (map slice_name acc) = true)
    by (apply existsb_exists; exists (we_type entry); split;
        [exact I | apply String.eqb_refl]).
  congruence.
Qed.

Lemma distribution_step_In acc entry type :
  In type (map slice_name (distribution_step acc entry))
  <-> In type (map slice_name acc) \/ type = we_type entry.
Proof.
  rewrite distribution_step_names.
  destruct (existsb (String.eqb (we_type entry)) (map slice_name acc)) eqn:X.
  - split; [tauto|]. intros [I | ->]; [exact I|].
    apply existsb_exists in X. destruct X as (n & I & E).
    apply String.eqb_eq in E. subst n. exact I.
  - rewrite in_app_iff. simpl. intuition.
Qed.

Lemma fold_distribution_invariants data :
  forall acc,
    NoDup (map slice_name acc) ->
    NoDup (map slice_name (fold_left distribution_step data acc))
    /\ forall type,
         In type (map slice_name (fold_left distribution_step data acc))
         <-> In type (map slice_name acc) \/ In type (map we_type data).
Proof.
  induction data as [|entry data IH]; intros acc N; simpl.
  - split; [exact N | intro type; tauto].
  - destruct (IH _ (distribution_step_NoDup acc entry N)) as [N' I'].
    split; [exact N'|]. intro type. rewrite I', distribution_step_In. intuition.
Qed.

Lemma first_value_add type type' quantity acc :
  first_value type (add_to_existing type' quantity acc)
  = if (type' =? type)%string
    then option_map (fun v => (v + quantity)%Q) (first_value type acc)
    else first_value type acc.
Proof.
  unfold first_value. induction acc as [|item rest IH]; simpl.
  - destruct (type' =? type)%string; reflexivity.
  - destruct (String.eqb_spec (slice_name item) type') as [E|E]; simpl.
    + destruct (String.eqb_spec (slice_name item) type) as [E2|E2]; simpl.
      * assert (X : (type' =? type)%string = true)
          by (apply String.eqb_eq; congruence).
        rewrite X. reflexivity.
      * assert (X : (type' =? type)%string = false)
          by (apply String.eqb_neq; congruence).
        rewrite X. reflexivity.
    + destruct (String.eqb_spec (slice_name item) type) as [E2|E2]; simpl.
      * assert (X : (type' =? type)%string = false)
          by (apply String.eqb_neq; congruence).
        rewrite X. reflexivity.
      * exact IH.
Qed.

Lemma first_value_app_new type acc item :
  first_value type (acc ++ [item])
  = match first_value type acc with
    | Some v => Some v
    | None => if (slice_name item =? type)%string then Some (slice_value item) else None
    end.
Proof.
  unfold first_value. induction acc as [|x rest IH]; simpl.
  - destruct (slice_name item =? type)%string; reflexivity.
  - destruct (slice_name x =? type)%string; [reflexivity | exact IH].
Qed.

Lemma first_value_step type acc entry :
  first_value type (distribution_step acc entry)
  = if (we_type entry =? type)%string
    then add_quantity (first_value type acc) (quantity_of entry)
    else first_value type acc.
Proof.
  unfold distribution_step, add_quantity.
  destruct (find (fun item => (slice_name item =? we_type entry)%string) acc) as [x|] eqn:F.
  - rewrite first_value_add.
    destruct (String.eqb_spec (we_type entry) type) as [E|E]; [|reflexivity].
    subst type. unfold first_value. rewrite F. reflexivity.
  - rewrite first_value_app_new. simpl.
    destruct (String.eqb_spec (we_type entry) type) as [E|E].
    + subst type. unfold first_value. rewrite F. reflexivity.
    + destruct (first_value type acc); reflexivity.
Qed.

Lemma first_value_fold type data :
  forall acc,
    first_value type (fold_left distribution_step data acc)
    = fold_left add_quantity (quantities_of_type type data) (first_value type acc).
Proof.
  unfold quantities_of_type.
  induction data as [|entry data IH]; intro acc; [reflexivity|].
  simpl fold_left at 1. rewrite IH, first_value_step. simpl filter.
  destruct (we_type entry =? type)%string; reflexivity.
Qed.

Lemma fold_add_quantity_some qs :
  forall v, fold_left add_quantity qs (Some v) = Some (fold_left Qplus qs v).
Proof.
  induction qs as [|q qs IH]; intro v; [reflexivity|]. simpl. apply IH.
Qed.

Lemma fold_add_quantity_none qs :
  fold_left add_quantity qs None = sum_from_first qs.
Proof.
  destruct qs as [|q qs]; [reflexivity|]. simpl. apply fold_add_quantity_some.
Qed.

Lemma first_value_of_member acc s :
  NoDup (map slice_name acc) -> In s acc ->
  first_value (slice_name s) acc = Some (slice_value s).
Proof.
  unfold first_value. induction acc as [|x rest IH]; intros N I; [destruct I|].
  simpl in N. apply NoDup_cons_iff in N. destruct N as [Nx N].
  simpl. destruct I as [->|I].
  - rewrite String.eqb_refl. reflexivity.
  - destruct (String.eqb_spec (slice_name x) (slice_name s)) as [E|E].
    + exfalso. apply Nx. rewrite E. apply in_map. exact I.
    + apply IH; assumption.
Qed.

Lemma fold_distribution_fill data :
  forall acc,
    Forall (fun s => slice_fill s = fill_color (slice_name s)) acc ->
    Forall (fun s => slice_fill s = fill_color (slice_name s))
      (fold_left distribution_step data acc).
Proof.
  induction data as [|entry data IH]; intros acc F; [exact F|].
  simpl. apply IH. unfold distribution_step.
  destruct (find _ acc).
  - clear IH. induction acc as [|x rest IHa]; [constructor|].
    apply Forall_cons_iff in F. destruct F as [Fx F].
    simpl. destruct (slice_name x =? we_type entry)%string.
    + constructor; [exact Fx | exact F].
    + constructor; [exact Fx | apply IHa; exact F].
  - apply Forall_app. split; [exact F|]. constructor; [reflexivity | constructor].
Qed.

Lemma categoryDistribution_NoDup data : NoDup (map slice_name (categoryDistribution data)).
Proof. apply (fold_distribution_invariants data [] (NoDup_nil _)). Qed.

Lemma categoryDistribution_names data type :
  In type (map slice_name (categoryDistribution data)) <-> In type (map we_type data).
Proof.
  unfold categoryDistribution.
  destruct (fold_distribution_invariants data [] (NoDup_nil _)) as [_ I].
  rewrite I. simpl. tauto.
Qed.

Lemma categoryDistribution_value data s :
  In s (categoryDistribution data) ->
  sum_from_first (quantities_of_type (slice_name s) data) = Some (slice_value s).
Proof.
  intro Hs. rewrite <- fold_add_quantity_none.
  change (@None Q) with (first_value (slice_name s) []).
  rewrite <- first_value_fold.
  apply first_value_of_member; [apply categoryDistribution_NoDup | exact Hs].
Qed.

(** X15.  The category distribution has exactly one slice per waste type
    that occurs among the entries; the value of a slice is the sum, in entry
    order, of the quantities of the entries of its type (a quantity that is
    not a number counts as 0); and its colour is the configured colour of
    the type, or the colour of "other" when none is configured. *)
Theorem categoryDistribution_groups_by_type (filteredData : list WasteEntry) :
  let dist := categoryDistribution filteredData in
  NoDup (map slice_name dist)
  /\ (forall type, In type (map slice_name dist) <-> In type (map we_type filteredData))
  /\ (forall s, In s dist ->
        sum_from_first (quantities_of_type (slice_name s) filteredData)
        = Some (slice_value s)
        /\ slice_fill s = fill_color (slice_name s)).
Proof.
  cbv zeta.
  split; [apply categoryDistribution_NoDup|]. split.
  - apply categoryDistribution_names.
  - intros s Hs. split; [apply categoryDistribution_value; exact Hs|].
    pose proof (fold_distribution_fill filteredData [] (Forall_nil _)) as F.
    rewrite Forall_forall in F. apply F. exact Hs.
Qed.

(** ** The recycled ratio *)

Lemma fold_Qplus_nonneg qs :
  forall v, Forall (fun q => 0 <= q)%Q qs -> (0 <= v)%Q -> (0 <= fold_left Qplus qs v)%Q.
Proof.
  induction qs as [|q qs IH]; intros v F V; [exact V|].
  apply Forall_cons_iff in F. destruct F as [Fq F].
  simpl. apply IH; [exact F|].
  change 0%Q with (0 + 0)%Q. apply Qplus_le_compat; assumption.
Qed.

Lemma categoryDistribution_nonneg data :
  (forall e, In e data -> (0 <= quantity_of e)%Q) ->
  Forall (fun s => 0 <= slice_value s)%Q (categoryDistribution data).
Proof.
  intro H. apply Forall_forall. intros s Hs.
  pose proof (categoryDistribution_value data s Hs) as V.
  assert (F : Forall (fun q => 0 <= q)%Q (quantities_of_type (slice_name s) data)).
  { unfold quantities_of_type. apply Forall_forall. intros q Hq.
    apply in_map_iff in Hq. destruct Hq as (e & <- & He).
    apply filter_In in He. apply H, He. }
  destruct (quantities_of_type (slice_name s) data) as [|q qs]; [discriminate V|].
  simpl in V. injection V as <-.
  apply Forall_cons_iff in F. destruct F as [Fq F].
  apply fold_Qplus_nonneg; assumption.
Qed.

Lemma fold_values_shift l :
  forall a,
    (fold_left (fun sum cat => sum + slice_value cat) l a
     == a + fold_left (fun sum cat => sum + slice_value cat) l 0)%Q.
Proof.
  induction l as [|x l IH]; intro a; simpl.
  - ring.
  - rewrite (IH (a + slice_value x)%Q), (IH (0 + slice_value x)%Q). ring.
Qed.

Lemma sum_values_cons x l : (sum_values (x :: l) == slice_value x + sum_values l)%Q.
Proof.
  unfold sum_values. simpl. rewrite fold_values_shift. ring.
Qed.

Lemma sum_values_filter_bounds (P : DistributionSlice -> bool) l :
  Forall (fun s => 0 <= slice_value s)%Q l ->
  (0 <= sum_values (filter P l) /\ sum_values (filter P l) <= sum_values l)%Q.
Proof.
  induction l as [|x l IH]; intro F.
  - split; apply Qle_refl.
  - apply Forall_cons_iff in F. destruct F as [Fx F].
    destruct (IH F) as [A B]. simpl filter. destruct (P x).
    + rewrite !sum_values_cons. split.
      * change 0%Q with (0 + 0)%Q. apply Qplus_le_compat; assumption.
      * apply Qplus_le_compat; [apply Qle_refl | exact B].
    + rewrite sum_values_cons. split; [exact A|].
      apply Qle_trans with (sum_values l); [exact B|].
      rewrite <- (Qplus_0_l (sum_values l)) at 1.
      apply Qplus_le_compat; [exact Fx | apply Qle_refl].
Qed.

Lemma toFixed0_comp (x y : Q) : (x == y)%Q -> toFixed0 x = toFixed0 y.
Proof.
  intro E. unfold toFixed0.
  assert (B : Qle_bool 0 x = Qle_bool 0 y).
  { destruct (Qle_bool 0 x) eqn:X, (Qle_bool 0 y) eqn:Y; try reflexivity.
    - apply Qle_bool_iff in X. rewrite E in X. apply Qle_bool_iff in X. congruence.
    - apply Qle_bool_iff in Y. rewrite <- E in Y. apply Qle_bool_iff in Y. congruence. }
  rewrite B.
  assert (F1 : Qfloor (x + (1 # 2)) = Qfloor (y + (1 # 2))) by (rewrite E; reflexivity).
  assert (F2 : Qfloor (- x + (1 # 2)) = Qfloor (- y + (1 # 2))) by (rewrite E; reflexivity).
  rewrite F1, F2. reflexivity.
Qed.

Lemma toFixed0_percentage (x : Q) :
  (0 <= x)%Q -> (x <= 100)%Q ->
  exists n, 0 <= n <= 100 /\ toFixed0 x = toString n.
Proof.
  intros Lo Hi. unfold toFixed0.
  assert (B : Qle_bool 0 x = true) by (apply Qle_bool_iff; exact Lo).
  rewrite B. exists (Qfloor (x + (1 # 2))). split; [|reflexivity]. split.
  - change 0 with (Qfloor 0). apply Qfloor_resp_le.
    change 0%Q with (0 + 0)%Q. apply Qplus_le_compat; [exact Lo | discriminate].
  - change 100 with (Qfloor (100 + (1 # 2))). apply Qfloor_resp_le.
    apply Qplus_le_compat; [exact Hi | apply Qle_refl].
Qed.

Lemma js_divide_by_zero (a b : Q) :
  (b == 0)%Q ->
  js_divide a b = NaN \/ js_divide a b = PositiveInfinity
  \/ js_divide a b = NegativeInfinity.
Proof.
  intro E. unfold js_divide.
  assert (B : Qeq_bool b 0 = true) by (apply Qeq_bool_iff; exact E).
  rewrite B. destruct (Qeq_bool a 0); [left; reflexivity|].
  destruct (Qle_bool 0 a); [right; left | right; right]; reflexivity.
Qed.

Lemma js_divide_number (a b : Q) :
  Qeq_bool b 0 = false -> js_divide a b = Number (a / b).
Proof. intro B. unfold js_divide. rewrite B. reflexivity. Qed.

(** X16.  A total of zero is answered with "0" and never divided by: the
    division itself would give NaN or an infinity there, whose text is not
    "0".  When no entry has a negative quantity, the recycled ratio shown is
    the decimal text of a whole number between 0 and 100. *)
Theorem recycledPercentage_is_a_percentage (filteredData : list WasteEntry) :
  (forall dist,
      (sum_values dist == 0)%Q ->
      recycledPercentage dist = "0"
      /\ js_toFixed0
           (js_times_100
              (js_divide
                 (sum_values
                    (filter (fun cat => existsb (String.eqb (slice_name cat)) recycled_names)
                       dist))
                 (sum_values dist))) <> "0")
  /\ ((forall e, In e filteredData -> (0 <= quantity_of e)%Q) ->
      exists n, 0 <= n <= 100
                /\ recycledPercentage (categoryDistribution filteredData) = toString n).
Proof.
  split.
  - intros dist E. split.
    + unfold recycledPercentage.
      assert (B : Qeq_bool (sum_values dist) 0 = true) by (apply Qeq_bool_iff; exact E).
      rewrite B. reflexivity.
    + destruct (js_divide_by_zero
                  (sum_values
                     (filter (fun cat => existsb (String.eqb (slice_name cat)) recycled_names)
                        dist))
                  (sum_values dist) E) as [-> | [-> | ->]]; discriminate.
  - intro H. unfold recycledPercentage.
    set (dist := categoryDistribution filteredData).
    pose proof (categoryDistribution_nonneg filteredData H) as F. fold dist in F.
    destruct (Qeq_bool (sum_values dist) 0) eqn:Z0.
    + exists 0. split; [lia | reflexivity].
    + rewrite (js_divide_number _ _ Z0). cbn [js_times_100 js_toFixed0].
      apply Qeq_bool_neq in Z0.
      destruct (sum_values_filter_bounds
                  (fun cat => existsb (String.eqb (slice_name cat)) recycled_names) dist F)
        as [A B].
      destruct (sum_values_filter_bounds (fun _ => true) dist F) as [T _].
      assert (Ef : filter (fun _ : DistributionSlice => true) dist = dist).
      { clear. induction dist as [|x l IH]; [reflexivity|]. simpl. rewrite IH. reflexivity. }
      rewrite Ef in T.
      assert (P : (0 < sum_values dist)%Q).
      { apply Qle_lteq in T. destruct T as [T|T]; [exact T|].
        exfalso. apply Z0. symmetry. exact T. }
      apply toFixed0_percentage.
      * apply Qmult_le_0_compat; [|discriminate].
        apply Qle_shift_div_l; [exact P|]. rewrite Qmult_0_l. exact A.
      * change 100%Q with (1 * 100)%Q at 2.
        apply Qmult_le_compat_r; [|discriminate].
        apply Qle_shift_div_r; [exact P|]. rewrite Qmult_1_l. exact B.
Qed.

Lemma recycledPercentage_is_a_percentage_witness :
  recycledPercentage
    [mkSlice "paper" (1 # 1)%Q "hsl(var(--chart-2))";
     mkSlice "other" (- 1 # 1)%Q "hsl(var(--muted))"] = "0"
  /\ exists n,
       0 <= n <= 100
       /\ recycledPercentage
            (categoryDistribution
               [mkWasteEntry "e1" "paper" (Some 1700000000000) (Some (3 # 1)%Q) "items";
                mkWasteEntry "e2" "other" (Some 1700000001000) (Some (1 # 1)%Q) "kg"])
          = toString n.
Proof.
  destruct (recycledPercentage_is_a_percentage
              [mkWasteEntry "e1" "paper" (Some 1700000000000) (Some (3 # 1)%Q) "items";
               mkWasteEntry "e2" "other" (Some 1700000001000) (Some (1 # 1)%Q) "kg"])
    as [Z P].
  split.
  - apply (Z [mkSlice "paper" (1 # 1)%Q "hsl(var(--chart-2))";
              mkSlice "other" (- 1 # 1)%Q "hsl(var(--muted))"]). reflexivity.
  - apply P. intros e [<- | [<- | []]]; discriminate.
Defined.

Example recycledPercentage_three_quarters :
  recycledPercentage
    (categoryDistribution
       [mkWasteEntry "e1" "paper" (Some 1700000000000) (Some (3 # 1)%Q) "items";
        mkWasteEntry "e2" "other" (Some 1700000001000) (Some (1 # 1)%Q) "kg"])
  = "75".
Proof. reflexivity. Qed.

(** ** The filters *)

Lemma in_date_range_iff from to entry :
  in_date_range from to entry = true
  <-> exists t, we_timestamp entry = Some t /\ t <> 0 /\ from <= t <= to.
Proof.
  unfold in_date_range. destruct (we_timestamp entry) as [t|].
  - destruct (Z.eqb_spec t 0) as [E|E].
    + split; [discriminate | intros (t' & H & N & _); injection H as <-; contradiction].
    + rewrite andb_true_iff, !Z.leb_le. split.
      * intros [A B]. exists t. auto.
      * intros (t' & H & _ & A & B). injection H as <-. auto.
  - split; [discriminate | intros (t & H & _); discriminate H].
Qed.

Lemma type_filter_iff (selectedWasteType : string) (data : list WasteEntry) entry :
  In entry (if negb (selectedWasteType =? "all")%string
            then filter (fun e => (we_type e =? selectedWasteType)%string) data
            else data)
  <-> In entry data /\ (selectedWasteType = "all" \/ we_type entry = selectedWasteType).
Proof.
  destruct (String.eqb_spec selectedWasteType "all") as [E|E]; simpl.
  - split; [intro H; split; [exact H | now left] | tauto].
  - rewrite filter_In, String.eqb_eq. split.
    + intros [A B]. auto.
    + intros [A [B|B]]; [contradiction | auto].
Qed.

(** X17.  With a date range that has both ends, an entry is kept exactly
    when its timestamp is a non-zero number inside the range (ends included)
    and its type is the selected one, or "all" is selected.  With no range,
    or a range that lacks an end, only the type decides, so entries without a
    usable timestamp are shown only then. *)
Theorem filterWasteData_membership
  (liveWasteData : list WasteEntry) (selectedWasteType : string) (entry : WasteEntry) :
  (forall from to,
     In entry (filterWasteData liveWasteData
                 (Some (mkDateRange (Some from) (Some to))) selectedWasteType)
     <-> In entry liveWasteData
         /\ (exists t, we_timestamp entry = Some t /\ t <> 0 /\ from <= t <= to)
         /\ (selectedWasteType = "all" \/ we_type entry = selectedWasteType))
  /\ (forall dateRange,
        (dateRange = None
         \/ (exists r, dateRange = Some r /\ (range_from r = None \/ range_to r = None))) ->
        In entry (filterWasteData liveWasteData dateRange selectedWasteType)
        <-> In entry liveWasteData
            /\ (selectedWasteType = "all" \/ we_type entry = selectedWasteType)).
Proof.
  split.
  - intros from to. unfold filterWasteData.
    rewrite type_filter_iff, filter_In, in_date_range_iff. tauto.
  - intros dateRange H. unfold filterWasteData.
    assert (E : match dateRange with
                | Some (mkDateRange (Some from) (Some to)) =>
                    filter (in_date_range from to) liveWasteData
                | _ => liveWasteData
                end = liveWasteData).
    { destruct H as [-> | (r & -> & [F|T])]; [reflexivity | |];
        destruct r as [[f|] [t|]]; simpl in *; try discriminate; reflexivity. }
    rewrite E. apply type_filter_iff.
Qed.

Lemma filterWasteData_membership_witness :
  In (mkWasteEntry "e1" "paper" None (Some (3 # 1)%Q) "items")
     (filterWasteData [mkWasteEntry "e1" "paper" None (Some (3 # 1)%Q) "items"]
        (Some (mkDateRange (Some 0) None)) "paper").
Proof.
  apply (filterWasteData_membership
           [mkWasteEntry "e1" "paper" None (Some (3 # 1)%Q) "items"] "paper"
           (mkWasteEntry "e1" "paper" None (Some (3 # 1)%Q) "items")).
  - right. eexists. split; [reflexivity | right; reflexivity].
  - split; [left; reflexivity | right; reflexivity].
Defined.

Lemma filterWasteData_types liveWasteData dateRange selectedWasteType entry :
  selectedWasteType <> "all" ->
  In entry (filterWasteData liveWasteData dateRange selectedWasteType) ->
  we_type entry = selectedWasteType.
Proof.
  intros N H. unfold filterWasteData in H.
  apply type_filter_iff in H. destruct H as [_ [H|H]]; [contradiction | exact H].
Qed.

Lemma single_name_list (l : list string) (n : string) :
  NoDup l -> (forall x, In x l -> x = n) -> l = [] \/ l = [n].
Proof.
  intros N H. destruct l as [|a [|b rest]].
  - now left.
  - right. rewrite (H a) by (now left). reflexivity.
  - exfalso. apply NoDup_cons_iff in N. destruct N as [N _]. apply N.
    rewrite (H a), (H b); simpl; auto.
Qed.

Lemma toFixed0_100 : toFixed0 100 = "100".
Proof. reflexivity. Qed.

Lemma toFixed0_0 : toFixed0 0 = "0".
Proof. reflexivity. Qed.

(** X18.  With one waste type selected the distribution has at most one
    slice, named after that type, and the recycled ratio is all or nothing:
    it reads "0" or "100". *)
Theorem single_type_distribution
  (liveWasteData : list WasteEntry) (dateRange : option DateRange)
  (selectedWasteType : string) :
  selectedWasteType <> "all" ->
  let dist :=
    categoryDistribution (filterWasteData liveWasteData dateRange selectedWasteType) in
  (dist = [] \/ exists s, dist = [s] /\ slice_name s = selectedWasteType)
  /\ (recycledPercentage dist = "0" \/ recycledPercentage dist = "100").
Proof.
  intros N dist.
  assert (S : dist = [] \/ exists s, dist = [s] /\ slice_name s = selectedWasteType).
  { destruct (single_name_list (map slice_name dist) selectedWasteType) as [E|E].
    - apply categoryDistribution_NoDup.
    - intros x Hx. apply categoryDistribution_names in Hx.
      apply in_map_iff in Hx. destruct Hx as (e & <- & He).
      apply (filterWasteData_types _ _ _ _ N He).
    - left. destruct dist; [reflexivity | discriminate E].
    - right. destruct dist as [|s [|s' rest]]; try discriminate E.
      exists s. split; [reflexivity|]. simpl in E. congruence. }
  split; [exact S|].
  destruct S as [-> | (s & -> & _)]; [left; reflexivity|].
  unfold recycledPercentage.
  destruct (Qeq_bool (sum_values [s]) 0) eqn:Z0; [left; reflexivity|].
  rewrite (js_divide_number _ _ Z0). cbn [js_times_100 js_toFixed0].
  apply Qeq_bool_neq in Z0. cbn [filter].
  destruct (existsb (String.eqb (slice_name s)) recycled_names).
  - right. rewrite <- toFixed0_100. apply toFixed0_comp.
    unfold Qdiv. rewrite Qmult_inv_r by exact Z0. reflexivity.
  - left. rewrite <- toFixed0_0. apply toFixed0_comp.
    unfold sum_values at 1. simpl. unfold Qdiv. ring.
Qed.

Lemma single_type_distribution_witness :
  recycledPercentage
    (categoryDistribution
       (filterWasteData
          [mkWasteEntry "e1" "paper" (Some 1700000000000) (Some (3 # 1)%Q) "items";
           mkWasteEntry "e2" "other" (Some 1700000001000) (Some (1 # 1)%Q) "kg"]
          None "paper")) = "0"
  \/ recycledPercentage
       (categoryDistribution
          (filterWasteData
             [mkWasteEntry "e1" "paper" (Some 1700000000000) (Some (3 # 1)%Q) "items";
              mkWasteEntry "e2" "other" (Some 1700000001000) (Some (1 # 1)%Q) "kg"]
             None "paper")) = "100".
Proof.
  apply (single_type_distribution
           [mkWasteEntry "e1" "paper" (Some 1700000000000) (Some (3 # 1)%Q) "items";
            mkWasteEntry "e2" "other" (Some 1700000001000) (Some (1 # 1)%Q) "kg"]
           None "paper").
  discriminate.
Defined.

(** * Properties of the leaderboard page *)

Lemma findIndex_spec {A : Type} (f : A -> bool) (l : list A) :
  (findIndex f l = -1 /\ forall x, In x l -> f x = false)
  \/ (0 <= findIndex f l < Z.of_nat (List.length l)
      /\ (exists x, nth_error l (Z.to_nat (findIndex f l)) = Some x /\ f x = true)
      /\ forall k y, (k < Z.to_nat (findIndex f l))%nat ->
                     nth_error l k = Some y -> f y = false).
Proof.
  induction l as [|a rest IH].
  - left. split; [reflexivity | intros x []].
  - simpl findIndex. destruct (f a) eqn:Fa.
    + right. split; [simpl List.length; lia|]. split.
      * exists a. split; [reflexivity | exact Fa].
      * intros k y Hk. simpl in Hk. lia.
    + destruct IH as [[E H]|(B & (x & Hx & Fx) & H)].
      * left. rewrite E. simpl. split; [reflexivity|].
        intros y [<-|Hy]; [exact Fa | apply H; exact Hy].
      * right. destruct (Z.eqb_spec (findIndex f rest) (-1)) as [E|E]; [lia|].
        split; [simpl List.length; lia|].
        replace (Z.to_nat (findIndex f rest + 1)) with (S (Z.to_nat (findIndex f rest)))
          by lia.
        split.
        -- exists x. split; [exact Hx | exact Fx].
        -- intros k y Hk Hy. destruct k as [|k].
           ++ simpl in Hy. injection Hy as <-. exact Fa.
           ++ simpl in Hy. apply (H k y); [lia | exact Hy].
Qed.

(** X19.  The rank cell shows a number [n] only when the current user has a
    non-empty id and the leaderboard entry at position [n] (counted from 1)
    is the first one with that id; it shows "N/A (Not in Top 10)" exactly
    when the user has a non-empty id that no entry carries, and "N/A" exactly
    when there are no stats or the id is empty. *)
Theorem getRankForCurrentUser_spec
  (currentUserStats : option UserProfile) (leaderboardData : list UserProfile) :
  match getRankForCurrentUser currentUserStats leaderboardData with
  | RankNumber n =>
      exists stats user,
        currentUserStats = Some stats /\ id stats <> ""
        /\ 1 <= n <= Z.of_nat (List.length leaderboardData)
        /\ nth_error leaderboardData (Z.to_nat (n - 1)) = Some user
        /\ id user = id stats
        /\ forall k other, (k < Z.to_nat (n - 1))%nat ->
                           nth_error leaderboardData k = Some other ->
                           id other <> id stats
  | RankText s =>
      (s = "N/A"
       /\ (currentUserStats = None
           \/ exists stats, currentUserStats = Some stats /\ id stats = ""))
      \/ (s = "N/A (Not in Top 10)"
          /\ exists stats, currentUserStats = Some stats /\ id stats <> ""
                           /\ forall user, In user leaderboardData -> id user <> id stats)
  end.
Proof.
  unfold getRankForCurrentUser.
  destruct currentUserStats as [stats|]; [|left; auto].
  destruct (String.eqb_spec (id stats) "") as [E|E]; [left; eauto|].
  destruct (findIndex_spec (fun user => (id user =? id stats)%string) leaderboardData)
    as [[I H]|(B & (x & Hx & Fx) & H)].
  - rewrite I. simpl. right. split; [reflexivity|].
    exists stats. split; [reflexivity|]. split; [exact E|].
    intros user Hu. apply String.eqb_neq. apply H. exact Hu.
  - destruct (Z.eqb_spec (findIndex (fun user => (id user =? id stats)%string)
                            leaderboardData) (-1)) as [C|C]; [lia|].
    simpl. exists stats, x. split; [reflexivity|]. split; [exact E|].
    split; [lia|].
    replace (findIndex (fun user => (id user =? id stats)%string) leaderboardData + 1 - 1)
      with (findIndex (fun user => (id user =? id stats)%string) leaderboardData) by lia.
    split; [exact Hx|]. split; [apply String.eqb_eq; exact Fx|].
    intros k other Hk Ho. apply String.eqb_neq. apply (H k other); assumption.
Qed.
